(** * The upload and metadata-extraction service, embedded in Rocq

    The development follows the TypeScript sources: the validation and file
    utilities, the S3 and DynamoDB service wrappers, the upload controller
    with its route, and the metadata-extraction Lambda.  JavaScript strings
    are sequences of UTF-16 code units, buffers are sequences of bytes, and
    the two stores are finite maps threaded through an explicit world. *)

From Stdlib Require Import NArith List String Ascii Bool Lia.
From Stdlib.Strings Require Import Byte.
From stdpp Require Import base option list gmap.

Set Warnings "-register-all".
Local Open Scope N_scope.

(** ** JavaScript strings *)

(** A JavaScript string is a sequence of UTF-16 code units. *)
Abbreviation jsstring := (list N).
Abbreviation Buffer := (list byte).

(** Code units of an ASCII literal. *)
Definition js (s : string) : jsstring :=
  List.map N_of_ascii (list_ascii_of_string s).

Definition jsstring_eqb (a b : jsstring) : bool := bool_decide (a = b).

(** [s.length] *)
Definition js_length (s : jsstring) : N := N.of_nat (length s).

(** [s.substring(0, n)] *)
Definition substring0 (n : nat) (s : jsstring) : jsstring := take n s.

(** [s.startsWith(p)] *)
Fixpoint startsWith (p s : jsstring) : bool :=
  match p, s with
  | [], _ => true
  | _ :: _, [] => false
  | a :: p', b :: s' => (a =? b) && startsWith p' s'
  end.

(** [s.split(c)] for a separator [c] of one code unit.  The result is never
    empty: a string without the separator is its own single segment. *)
Fixpoint split_char (c : N) (s : jsstring) : list jsstring :=
  match s with
  | [] => [[]]
  | x :: s' =>
      if x =? c then [] :: split_char c s'
      else match split_char c s' with
           | seg :: rest => (x :: seg) :: rest
           | [] => [[x]]
           end
  end.

(** Named code units. *)
Definition ch_slash : N := 47.
Definition ch_T : N := 84.
Definition ch_newline : N := 10.
Definition ch_underscore : N := 95.
Definition ch_dash : N := 45.
Definition ch_dot : N := 46.
Definition ch_plus : N := 43.
Definition ch_space : N := 32.
Definition ch_quote : N := 34.

(** ** Dates *)

(** The UTC fields of a [Date]; [month] counts from 1 as in the ISO text. *)
Record Date := mkDate {
  year : N; month : N; day : N;
  hours : N; minutes : N; seconds : N; milliseconds : N
}.

Definition digit (n : N) : N := 48 + n mod 10.

Definition pad2 (n : N) : jsstring := [digit (n / 10); digit n].
Definition pad3 (n : N) : jsstring := digit (n / 100) :: pad2 n.
Definition pad4 (n : N) : jsstring := digit (n / 1000) :: pad3 n.
Definition pad6 (n : N) : jsstring :=
  digit (n / 100000) :: digit (n / 10000) :: pad4 n.

(** [Date.prototype.toISOString]: [YYYY-MM-DDTHH:mm:ss.sssZ], with the
    expanded six-digit year [+YYYYYY] past the year 9999. *)
Definition toISOString (d : Date) : jsstring :=
  (if year d <=? 9999 then pad4 (year d) else ch_plus :: pad6 (year d))
  ++ [ch_dash] ++ pad2 (month d) ++ [ch_dash] ++ pad2 (day d)
  ++ [ch_T] ++ pad2 (hours d) ++ js ":" ++ pad2 (minutes d)
  ++ js ":" ++ pad2 (seconds d) ++ js "." ++ pad3 (milliseconds d) ++ js "Z".

(** ** fileUtils.ts *)

(** [generateS3Key]; [now] is the value of [new Date()] at the call. *)
Definition generateS3Key (now : Date) (filename fileId : jsstring) : jsstring :=
  let timestamp := default [] (split_char ch_T (toISOString now) !! 0%nat) in
  js "uploads/" ++ timestamp ++ [ch_slash] ++ fileId ++ [ch_slash] ++ filename.

Definition isPDF (mimeType : jsstring) : bool :=
  jsstring_eqb mimeType (js "application/pdf").

Definition isImage (mimeType : jsstring) : bool :=
  startsWith (js "image/") mimeType.


(** ** JSON values *)

(** A number read by [JSON.parse] is a finite double [mant * 2^expo] or an
    infinity (a literal too large for a double). *)
Inductive JSNumber :=
  | NFinite (mant expo : Z)
  | NInfinity (negative : bool).

Inductive JSValue :=
  | JNull
  | JBool (b : bool)
  | JNumber (n : JSNumber)
  | JString (s : jsstring)
  | JArray (items : list JSValue)
  | JObject (fields : list (jsstring * JSValue)).

(** Property read [o[k]] on an object built by [JSON.parse]. *)
Fixpoint get_field (k : jsstring) (fields : list (jsstring * JSValue))
  : option JSValue :=
  match fields with
  | [] => None
  | (k', v) :: rest => if jsstring_eqb k k' then Some v else get_field k rest
  end.

(** [ToBoolean]. *)
Definition truthy (v : JSValue) : bool :=
  match v with
  | JNull => false
  | JBool b => b
  | JNumber (NFinite m _) => negb (m =? 0)%Z
  | JNumber (NInfinity _) => true
  | JString s => negb (jsstring_eqb s [])
  | JArray _ | JObject _ => true
  end.

(** ** validation.ts *)

Definition in_range (lo hi c : N) : bool := (lo <=? c) && (c <=? hi).

Definition is_digit (c : N) : bool := in_range 48 57 c.
Definition is_lower (c : N) : bool := in_range 97 122 c.
Definition is_upper (c : N) : bool := in_range 65 90 c.

(** [[0-9a-f]] under the [i] flag. *)
Definition is_hex (c : N) : bool :=
  is_digit c || in_range 97 102 c || in_range 65 70 c.

(** A pattern [^c1 c2 ... cn$] made of single-character classes. *)
Fixpoint match_classes (classes : list (N -> bool)) (s : jsstring) : bool :=
  match classes, s with
  | [], [] => true
  | p :: classes', c :: s' => p c && match_classes classes' s'
  | _, _ => false
  end.

Definition is_char (x c : N) : bool := c =? x.

Definition allowedTypes : list jsstring :=
  [ js "application/pdf";
    js "image/jpeg";
    js "image/png";
    js "image/gif";
    js "image/webp";
    js "text/plain";
    js "application/msword";
    js "application/vnd.openxmlformats-officedocument.wordprocessingml.document" ].

(** [allowedTypes.includes(mimeType)] *)
Definition includes (l : list jsstring) (x : jsstring) : bool :=
  existsb (jsstring_eqb x) l.

Definition validateFileType (mimeType : jsstring) : bool :=
  includes allowedTypes mimeType.

Definition defaultMaxSize : N := 50 * 1024 * 1024.

Definition validateFileSize (size : N) (maxSize : N) : bool :=
  size <=? maxSize.

(** [/[^a-zA-Z0-9.-]/] *)
Definition filename_safe (c : N) : bool :=
  is_lower c || is_upper c || is_digit c || (c =? ch_dot) || (c =? ch_dash).

(** [.replace(/_+/g, '_')] *)
Fixpoint collapse_underscores (s : jsstring) : jsstring :=
  match s with
  | [] => []
  | x :: s' =>
      match s' with
      | y :: _ =>
          if (x =? ch_underscore) && (y =? ch_underscore)
          then collapse_underscores s'
          else x :: collapse_underscores s'
      | [] => [x]
      end
  end.

Definition strip_leading_underscore (s : jsstring) : jsstring :=
  match s with
  | x :: s' => if x =? ch_underscore then s' else s
  | [] => []
  end.

Fixpoint strip_trailing_underscore (s : jsstring) : jsstring :=
  match s with
  | [] => []
  | x :: s' =>
      match s' with
      | [] => if x =? ch_underscore then [] else [x]
      | _ :: _ => x :: strip_trailing_underscore s'
      end
  end.

(** [sanitizeFilename]: the three [replace] calls in order. *)
Definition sanitizeFilename (filename : jsstring) : jsstring :=
  let s1 := List.map (fun c => if filename_safe c then c else ch_underscore)
                     filename in
  let s2 := collapse_underscores s1 in
  strip_trailing_underscore (strip_leading_underscore s2).

(** The identifier pattern tested by [getMetadata]:
    [/^[0-9a-f]{8}-[0-9a-f]{4}-[1-5][0-9a-f]{3}-[89ab][0-9a-f]{3}-[0-9a-f]{12}$/i] *)
Definition uuid_pattern : list (N -> bool) :=
  repeat is_hex 8 ++ [is_char ch_dash] ++
  repeat is_hex 4 ++ [is_char ch_dash] ++
  [in_range 49 53] ++ repeat is_hex 3 ++ [is_char ch_dash] ++
  [fun c => in_range 56 57 c || in_range 97 98 c || in_range 65 66 c] ++
  repeat is_hex 3 ++ [is_char ch_dash] ++
  repeat is_hex 12.

Definition uuid_test (fileId : jsstring) : bool :=
  match_classes uuid_pattern fileId.

(** *** The Joi schema [uploadSchema]

    The schema describes the parsed [userMetadata] object.  A Joi string is
    a non-empty string unless the schema says otherwise; [optional()] admits
    an absent key only; an object schema rejects unknown keys.  The test
    [date().iso().greater('now')] depends on the clock and is a parameter. *)

Definition joi_string (minLen maxLen : nat) (v : JSValue) : bool :=
  match v with
  | JString s =>
      negb (jsstring_eqb s []) &&
      (minLen <=? length s)%nat && (length s <=? maxLen)%nat
  | _ => false
  end.

Definition joi_optional (check : JSValue -> bool) (o : option JSValue) : bool :=
  match o with
  | None => true
  | Some v => check v
  end.

Definition joi_array (item : JSValue -> bool) (maxItems : nat) (v : JSValue)
  : bool :=
  match v with
  | JArray items => forallb item items && (length items <=? maxItems)%nat
  | _ => false
  end.

Definition joi_iso_future (isoGreaterNow : jsstring -> bool) (v : JSValue)
  : bool :=
  match v with
  | JString s => isoGreaterNow s
  | _ => false
  end.

Definition uploadSchema_keys : list jsstring :=
  [js "author"; js "expirationDate"; js "description"; js "tags"].

Definition uploadSchema (isoGreaterNow : jsstring -> bool)
  (userMetadata : option JSValue) : bool :=
  match userMetadata with
  | Some (JObject fields) =>
      forallb (fun kv => includes uploadSchema_keys (fst kv)) fields &&
      joi_optional (joi_string 1 255) (get_field (js "author") fields) &&
      joi_optional (joi_iso_future isoGreaterNow)
                   (get_field (js "expirationDate") fields) &&
      joi_optional (joi_string 0 1000) (get_field (js "description") fields) &&
      joi_optional (joi_array (joi_string 0 50) 10)
                   (get_field (js "tags") fields)
  | _ => false
  end.

(** ** types/index.ts *)

Inductive FileStatus := UPLOADING | UPLOADED | PROCESSING | PROCESSED | ERROR.

Record Dimensions := mkDimensions { width : N; height : N }.

Record ExifData := mkExifData {
  density : option N; hasProfile : option bool; hasAlpha : option bool
}.

Record TextAnalysis := mkTextAnalysis { lines : N; words : N; characters : N }.

(** An optional property is [None] when it is absent or [undefined]. *)
Record ExtractedMetadata := mkExtracted {
  fileType : jsstring;
  fileSize : N;
  pages : option N;
  dimensions : option Dimensions;
  textContent : option jsstring;
  createdDate : option jsstring;
  modifiedDate : option jsstring;
  encoding : option jsstring;
  exifData : option ExifData;
  textAnalysis : option TextAnalysis;
  extractionError : option jsstring
}.

Record FileMetadata := mkFileMetadata {
  id : jsstring;
  originalName : jsstring;
  fileName : jsstring;
  mimeType : jsstring;
  size : N;
  s3Key : jsstring;
  s3Bucket : jsstring;
  uploadedAt : jsstring;
  userMetadata : JSValue;
  extractedMetadata : option ExtractedMetadata;
  status : FileStatus
}.

Record S3UploadResult := mkS3UploadResult {
  key : jsstring; bucket : jsstring; location : jsstring; etag : jsstring
}.

(** ** Results of calls that may throw *)

Inductive Result (A : Type) :=
  | Ok (a : A)
  | Throw (message : jsstring).
Arguments Ok {A} a.
Arguments Throw {A} message.

Definition is_ok {A} (r : Result A) : bool :=
  match r with Ok _ => true | Throw _ => false end.

(** ** What the libraries and the surroundings supply *)

(** The result of [pdfParse]. *)
Record PdfInfo := mkPdfInfo {
  CreationDate : option jsstring; ModDate : option jsstring
}.

Record PdfData := mkPdfData {
  numpages : N; text : jsstring; info : option PdfInfo
}.

(** The result of [sharp(buffer).metadata()]. *)
Record ImageData := mkImageData {
  img_width : option N;
  img_height : option N;
  img_format : option jsstring;
  img_exif : option Buffer;
  img_density : option N;
  img_hasProfile : option bool;
  img_hasAlpha : option bool
}.

(** Everything the service takes from outside its own sources: the value
    of the n-th effect ([uuidv4()], [new Date()], the failure of an SDK
    call), the parsers of the runtime and of the libraries, and the
    configuration. *)
Record Platform := mkPlatform {
  uuidv4_at : nat -> jsstring;
  now_at : nat -> Date;
  sdk_fault : nat -> option jsstring;
  JSON_parse : jsstring -> Result JSValue;
  decodeURIComponent : jsstring -> Result jsstring;
  pdfParse : Buffer -> Result PdfData;
  sharp_metadata : Buffer -> Result ImageData;
  getSignedUrl : jsstring -> jsstring -> N -> Result jsstring;
  response_etag : Buffer -> option jsstring;
  isoGreaterNow : jsstring -> bool;
  config_bucket : jsstring;
  config_endpointUrl : jsstring
}.

(** ** The two stores *)

Record S3Object := mkS3Object {
  Body : Buffer;
  ContentType : jsstring;
  Metadata : list (jsstring * JSValue)
}.

(** The attributes set by one [UpdateCommand]; the service updates the
    status, or the extracted metadata together with the status. *)
Record Updates := mkUpdates {
  upd_extractedMetadata : option ExtractedMetadata;
  upd_status : option FileStatus
}.

Inductive Command :=
  | PutObject (Bucket Key : jsstring) (obj : S3Object)
  | GetObject (Bucket Key : jsstring)
  | DeleteObject (Bucket Key : jsstring)
  | PutItem (Item : FileMetadata)
  | GetItem (Key : jsstring)
  | UpdateItem (Key : jsstring) (updates : Updates)
  | DeleteItem (Key : jsstring).

(** The world: the objects of S3 by bucket and key, the items of the
    DynamoDB table by id, the SDK commands sent so far with their success,
    oldest first, and the count of effects performed. *)
Record World := mkWorld {
  objects : gmap (jsstring * jsstring) S3Object;
  table : gmap jsstring FileMetadata;
  log : list (Command * bool);
  tick : nat
}.

Definition set_objects (f : gmap (jsstring * jsstring) S3Object ->
                            gmap (jsstring * jsstring) S3Object)
  (w : World) : World :=
  mkWorld (f (objects w)) (table w) (log w) (tick w).

Definition set_table (f : gmap jsstring FileMetadata ->
                          gmap jsstring FileMetadata)
  (w : World) : World :=
  mkWorld (objects w) (f (table w)) (log w) (tick w).

Definition record_call (cmd : Command) (ok : bool) (w : World) : World :=
  mkWorld (objects w) (table w) (log w ++ [(cmd, ok)]) (tick w).

Definition advance (w : World) : World :=
  mkWorld (objects w) (table w) (log w) (S (tick w)).

(** ** Computations over the world that may throw *)

Definition M (A : Type) : Type := World -> Result A * World.

Definition ret {A} (a : A) : M A := fun w => (Ok a, w).

Definition throw {A} (message : jsstring) : M A := fun w => (Throw message, w).

Definition bind {A B} (m : M A) (k : A -> M B) : M B :=
  fun w =>
    match m w with
    | (Ok a, w') => k a w'
    | (Throw e, w') => (Throw e, w')
    end.

(** [try { m } catch (error) { handler(error.message) }] *)
Definition try_catch {A} (m : M A) (handler : jsstring -> M A) : M A :=
  fun w =>
    match m w with
    | (Ok a, w') => (Ok a, w')
    | (Throw e, w') => handler e w'
    end.

Definition lift {A} (r : Result A) : M A := fun w => (r, w).

Notation "'do' x <- m ; k" := (bind m (fun x => k))
  (at level 10, x name, m at level 100, k at level 200).
Notation "'do_' m ; k" := (bind m (fun _ => k))
  (at level 10, m at level 100, k at level 200).

(** ** Effects *)

Section Effects.

Variable P : Platform.

(** [uuidv4()] and [new Date()] read the platform at the current tick. *)
Definition uuidv4 : M jsstring :=
  fun w => (Ok (uuidv4_at P (tick w)), advance w).

Definition new_Date : M Date :=
  fun w => (Ok (now_at P (tick w)), advance w).

(** [client.send(command)]: the call is logged with its outcome; a
    platform fault makes it throw without touching the stores. *)
Definition send {A} (cmd : Command) (run : World -> Result A * World) : M A :=
  fun w =>
    let w1 := advance w in
    match sdk_fault P (tick w) with
    | Some message => (Throw message, record_call cmd false w1)
    | None =>
        let '(r, w2) := run w1 in
        (r, record_call cmd (is_ok r) w2)
    end.

End Effects.

(** [throw new Error(prefix + error.message)] in a [catch] block. *)
Definition rethrow {A} (prefix : string) (m : M A) : M A :=
  try_catch m (fun e => throw (js prefix ++ e)).

(** ** services/s3Service.ts *)

Module S3Service.
Section WithPlatform.

Variable P : Platform.

Definition uploadFile (key : jsstring) (fileBuffer : Buffer)
  (mimeType : jsstring) (metadata : list (jsstring * JSValue))
  : M S3UploadResult :=
  rethrow "Failed to upload file to S3: "
    (let obj := mkS3Object fileBuffer mimeType metadata in
     do _ <- send P (PutObject (config_bucket P) key obj)
               (fun w => (Ok tt,
                          set_objects <[(config_bucket P, key) := obj]> w));
     ret (mkS3UploadResult key (config_bucket P)
            (config_endpointUrl P ++ [ch_slash] ++ config_bucket P
               ++ [ch_slash] ++ key)
            (default [] (response_etag P fileBuffer)))).

Definition getFile (key : jsstring) : M Buffer :=
  rethrow "Failed to get file from S3: "
    (send P (GetObject (config_bucket P) key)
       (fun w =>
          match objects w !! (config_bucket P, key) with
          | Some obj => (Ok (Body obj), w)
          | None => (Throw (js "The specified key does not exist."), w)
          end)).

Definition deleteFile (key : jsstring) : M unit :=
  rethrow "Failed to delete file from S3: "
    (send P (DeleteObject (config_bucket P) key)
       (fun w => (Ok tt, set_objects (delete (config_bucket P, key)) w))).

(** The URL is signed locally: no command is sent. *)
Definition getPresignedUrl (key : jsstring) (expiresIn : N) : M jsstring :=
  rethrow "Failed to generate presigned URL: "
    (lift (getSignedUrl P (config_bucket P) key expiresIn)).

End WithPlatform.
End S3Service.

(** ** services/dynamoService.ts *)

Module DynamoDBService.
Section WithPlatform.

Variable P : Platform.

Definition saveMetadata (metadata : FileMetadata) : M unit :=
  rethrow "Failed to save metadata to DynamoDB: "
    (do stamp <- (if jsstring_eqb (uploadedAt metadata) []
                  then do d <- new_Date P; ret (toISOString d)
                  else ret (uploadedAt metadata));
     let item :=
       mkFileMetadata (id metadata) (originalName metadata)
         (fileName metadata) (mimeType metadata) (size metadata)
         (s3Key metadata) (s3Bucket metadata) stamp
         (userMetadata metadata) (extractedMetadata metadata)
         (status metadata) in
     send P (PutItem item)
       (fun w => (Ok tt, set_table <[id item := item]> w))).

Definition getMetadata (fileId : jsstring) : M (option FileMetadata) :=
  rethrow "Failed to get metadata from DynamoDB: "
    (send P (GetItem fileId) (fun w => (Ok (table w !! fileId), w))).

(** [SET] of the given attributes on one item. *)
Definition apply_updates (u : Updates) (m : FileMetadata) : FileMetadata :=
  mkFileMetadata (id m) (originalName m) (fileName m) (mimeType m) (size m)
    (s3Key m) (s3Bucket m) (uploadedAt m) (userMetadata m)
    (match upd_extractedMetadata u with
     | Some e => Some e
     | None => extractedMetadata m
     end)
    (default (status m) (upd_status u)).

(** An [UpdateCommand] on a key that holds no item would create an item
    with the key and the [SET] attributes alone, which is no
    [FileMetadata]; the table of typed records is left as it is then.
    Every update of the service follows a read or a write of its key. *)
Definition updateMetadata (fileId : jsstring) (updates : Updates) : M unit :=
  rethrow "Failed to update metadata in DynamoDB: "
    (send P (UpdateItem fileId updates)
       (fun w => (Ok tt, set_table (alter (apply_updates updates) fileId) w))).

Definition deleteMetadata (fileId : jsstring) : M unit :=
  rethrow "Failed to delete metadata from DynamoDB: "
    (send P (DeleteItem fileId)
       (fun w => (Ok tt, set_table (delete fileId) w))).

Definition updateFileStatus (fileId : jsstring) (status : FileStatus) : M unit :=
  updateMetadata fileId (mkUpdates None (Some status)).

Definition addExtractedMetadata (fileId : jsstring)
  (extractedMetadata : ExtractedMetadata) : M unit :=
  updateMetadata fileId (mkUpdates (Some extractedMetadata) (Some PROCESSED)).

End WithPlatform.
End DynamoDBService.

(** ** lambda/metadataExtractor.ts *)

(** *** Text of a buffer *)

(** [buffer.toString('utf8')]: the bytes are decoded as UTF-8, every
    maximal ill-formed subsequence becoming U+FFFD, and the code points are
    written as UTF-16 code units. *)
Record Utf8State := mkUtf8State {
  u_codepoint : N; u_needed : nat; u_lower : N; u_upper : N
}.

Definition replacement : N := 65533.

Definition utf8_lead (b : N) : list N * option Utf8State :=
  if b <=? 127 then ([b], None)
  else if in_range 194 223 b
  then ([], Some (mkUtf8State (N.land b 31) 1 128 191))
  else if in_range 224 239 b
  then ([], Some (mkUtf8State (N.land b 15) 2
                    (if b =? 224 then 160 else 128)
                    (if b =? 237 then 159 else 191)))
  else if in_range 240 244 b
  then ([], Some (mkUtf8State (N.land b 7) 3
                    (if b =? 240 then 144 else 128)
                    (if b =? 244 then 143 else 191)))
  else ([replacement], None).

Definition utf8_step (st : option Utf8State) (b : N)
  : list N * option Utf8State :=
  match st with
  | None => utf8_lead b
  | Some st =>
      if in_range (u_lower st) (u_upper st) b then
        let cp := u_codepoint st * 64 + N.land b 63 in
        match u_needed st with
        | S (S n) => ([], Some (mkUtf8State cp (S n) 128 191))
        | _ => ([cp], None)
        end
      else
        let '(out, st') := utf8_lead b in (replacement :: out, st')
  end.

Fixpoint utf8_codepoints (st : option Utf8State) (bytes : list N) : list N :=
  match bytes with
  | [] => match st with Some _ => [replacement] | None => [] end
  | b :: rest =>
      let '(out, st') := utf8_step st b in
      out ++ utf8_codepoints st' rest
  end.

Definition utf16_units (cp : N) : list N :=
  if cp <? 65536 then [cp]
  else [55296 + (cp - 65536) / 1024; 56320 + (cp - 65536) mod 1024].

Definition toString_utf8 (buffer : Buffer) : jsstring :=
  concat (List.map utf16_units
            (utf8_codepoints None (List.map Byte.to_N buffer))).

(** The bytes of an ASCII literal. *)
Definition bytes_of (s : string) : Buffer := list_byte_of_string s.

(** [buffer.length] *)
Definition buffer_length (buffer : Buffer) : N := N.of_nat (length buffer).

(** The class [\s] of a regular expression. *)
Definition is_space (c : N) : bool :=
  in_range 9 13 c || (c =? 32) || (c =? 160) || (c =? 5760) ||
  in_range 8192 8202 c || (c =? 8232) || (c =? 8233) || (c =? 8239) ||
  (c =? 8287) || (c =? 12288) || (c =? 65279).

(** [s.split(/\s+/)]: the segments between the maximal runs of white
    space; a run at either end of the string leaves an empty segment
    there, and a string without white space is its own single segment. *)
Fixpoint split_whitespace (s : jsstring) : list jsstring :=
  match s with
  | [] => [[]]
  | x :: s' =>
      if is_space x then
        match s' with
        | y :: _ => if is_space y then split_whitespace s'
                    else [] :: split_whitespace s'
        | [] => [[]; []]
        end
      else
        match split_whitespace s' with
        | seg :: rest => (x :: seg) :: rest
        | [] => [[x]]
        end
  end.

(** [arr.length] *)
Definition array_length {A} (l : list A) : N := N.of_nat (length l).

(** *** Extraction *)

Definition catch_result {A} (r : Result A) (handler : jsstring -> Result A)
  : Result A :=
  match r with
  | Ok a => Ok a
  | Throw e => handler e
  end.

(** [a || 0] on an optional number. *)
Definition or_zero (o : option N) : N :=
  match o with
  | Some n => n
  | None => 0
  end.

Section Extractor.

Variable P : Platform.

(** The object [metadata] at the start of [extractFileMetadata]. *)
Definition basic_metadata (fileBuffer : Buffer) (mimeType : jsstring)
  : ExtractedMetadata :=
  mkExtracted mimeType (buffer_length fileBuffer)
    None None None None None None None None None.

(** The object returned from the [catch] block. *)
Definition degraded_metadata (fileBuffer : Buffer) (mimeType message : jsstring)
  : ExtractedMetadata :=
  mkExtracted mimeType (buffer_length fileBuffer)
    None None None None None None None None (Some message).

(** The [try] block of [extractFileMetadata]. *)
Definition extract_by_type (fileBuffer : Buffer) (mimeType : jsstring)
  : Result ExtractedMetadata :=
  let metadata := basic_metadata fileBuffer mimeType in
  if jsstring_eqb mimeType (js "application/pdf") then
    match pdfParse P fileBuffer with
    | Throw e => Throw e
    | Ok pdfData =>
        Ok (mkExtracted (fileType metadata) (fileSize metadata)
              (Some (numpages pdfData))
              None
              (Some (substring0 5000 (text pdfData)))
              (match info pdfData with
               | Some i => CreationDate i
               | None => None
               end)
              (match info pdfData with
               | Some i => ModDate i
               | None => None
               end)
              None None None None)
    end
  else if startsWith (js "image/") mimeType then
    match sharp_metadata P fileBuffer with
    | Throw e => Throw e
    | Ok imageData =>
        Ok (mkExtracted (fileType metadata) (fileSize metadata)
              None
              (Some (mkDimensions (or_zero (img_width imageData))
                                  (or_zero (img_height imageData))))
              None None None
              (img_format imageData)
              (match img_exif imageData with
               | Some _ =>
                   Some (mkExifData (img_density imageData)
                           (img_hasProfile imageData)
                           (img_hasAlpha imageData))
               | None => None
               end)
              None None)
    end
  else if jsstring_eqb mimeType (js "text/plain") then
    let textContent := toString_utf8 fileBuffer in
    let lines := array_length (split_char ch_newline textContent) in
    let words := array_length (split_whitespace textContent) in
    let characters := js_length textContent in
    Ok (mkExtracted (fileType metadata) (fileSize metadata)
          None None
          (Some (substring0 5000 textContent))
          None None
          (Some (js "utf8"))
          None
          (Some (mkTextAnalysis lines words characters))
          None)
  else
    Ok (mkExtracted mimeType (fileSize metadata)
          None None None None None None None None None).

Definition extractFileMetadata (fileBuffer : Buffer) (mimeType : jsstring)
  : Result ExtractedMetadata :=
  catch_result (extract_by_type fileBuffer mimeType)
    (fun message => Ok (degraded_metadata fileBuffer mimeType message)).

(** The Lambda reads with a client of its own and the bucket of the event. *)
Definition getFileFromS3 (bucketName objectKey : jsstring) : M Buffer :=
  send P (GetObject bucketName objectKey)
    (fun w =>
       match objects w !! (bucketName, objectKey) with
       | Some obj => (Ok (Body obj), w)
       | None => (Throw (js "The specified key does not exist."), w)
       end).

Record S3EventRecord := mkS3EventRecord {
  s3_bucket_name : jsstring;
  s3_object_key : jsstring
}.

(** [key.replace(/\+/g, ' ')] *)
Definition replace_plus (s : jsstring) : jsstring :=
  List.map (fun c => if c =? ch_plus then ch_space else c) s.

Definition processS3Record (record : S3EventRecord) : M unit :=
  let bucketName := s3_bucket_name record in
  do objectKey <- lift (decodeURIComponent P (replace_plus (s3_object_key record)));
  try_catch
    (do fileBuffer <- getFileFromS3 bucketName objectKey;
     let pathParts := split_char ch_slash objectKey in
     match pathParts !! 2%nat with
     | None => ret tt
     | Some fileId =>
         if jsstring_eqb fileId [] then ret tt
         else
           do metadata <- DynamoDBService.getMetadata P fileId;
           match metadata with
           | None => ret tt
           | Some metadata =>
               do extractedMetadata <-
                 lift (extractFileMetadata fileBuffer (mimeType metadata));
               DynamoDBService.addExtractedMetadata P fileId extractedMetadata
           end
     end)
    (fun e => throw e).

(** [handler]: the records of one event in order; an error on one is
    logged and the next is processed. *)
Fixpoint handler (records : list S3EventRecord) : M unit :=
  match records with
  | [] => ret tt
  | record :: rest =>
      do_ try_catch (processS3Record record) (fun _ => ret tt);
      handler rest
  end.

End Extractor.

(** ** HTTP responses *)

Inductive ResponseBody :=
  | Failed (error : jsstring)
  | Uploaded (fileId message : jsstring)
  | Found (data : FileMetadata)
  | Succeeded (message : jsstring)
  | DownloadLink (downloadUrl : jsstring) (expiresIn : N)
  | ApiError (error : jsstring) (statusCode : N).

Record Response := mkResponse { statusCode : N; body : ResponseBody }.

(** [res.status(code).json(body)]; [res.json(body)] answers 200. *)
Definition respond (code : N) (b : ResponseBody) : M Response :=
  ret (mkResponse code b).

(** The outer [try]/[catch] of a controller method: every error becomes
    the 500 answer of that method. *)
Definition guarded (m : M Response) (message : string)
  : World -> Response * World :=
  fun w =>
    match m w with
    | (Ok r, w') => (r, w')
    | (Throw _, w') => (mkResponse 500 (Failed (js message)), w')
    end.

(** ** controllers/fileController.ts *)

(** [req.file] as multer leaves it. *)
Record MulterFile := mkMulterFile {
  originalname : jsstring;
  mimetype : jsstring;
  buffer : Buffer;
  file_size : N
}.

(** An upload request: the file and the text field [userMetadata] of the
    multipart body, each possibly absent. *)
Record UploadRequest := mkUploadRequest {
  req_file : option MulterFile;
  req_userMetadata : option jsstring
}.

(** [v.author]: reading a property of [null] throws a [TypeError]; a
    primitive or an array has no such property. *)
Definition read_author (v : JSValue) : Result (option JSValue) :=
  match v with
  | JNull => Throw (js "Cannot read properties of null (reading 'author')")
  | JObject fields => Ok (get_field (js "author") fields)
  | _ => Ok None
  end.

(** [a || 'anonymous'] *)
Definition or_anonymous (a : option JSValue) : JSValue :=
  match a with
  | Some v => if truthy v then v else JString (js "anonymous")
  | None => JString (js "anonymous")
  end.

Module FileController.
Section WithPlatform.

Variable P : Platform.

Definition uploadFile (req : UploadRequest) : World -> Response * World :=
  guarded
    (match req_file req with
     | None => respond 400 (Failed (js "No file uploaded"))
     | Some file =>
         do userMetadata <-
           (match req_userMetadata req with
            | Some field =>
                if jsstring_eqb field [] then ret (JObject [])
                else lift (JSON_parse P field)
            | None => ret (JObject [])
            end);
         if negb (validateFileType (mimetype file)) then
           respond 400 (Failed (js
             "Invalid file type. Allowed types: PDF, Images (JPEG, PNG, GIF, WebP), Text, Word documents"))
         else if negb (validateFileSize (file_size file) defaultMaxSize) then
           respond 400 (Failed (js "File too large. Maximum size is 50MB"))
         else
           do fileId <- uuidv4 P;
           do now <- new_Date P;
           let s3Key := generateS3Key now (originalname file) fileId in
           do author <- lift (read_author userMetadata);
           do uploadResult <-
             S3Service.uploadFile P s3Key (buffer file) (mimetype file)
               [ (js "fileId", JString fileId);
                 (js "originalName", JString (originalname file));
                 (js "uploadedBy", or_anonymous author) ];
           do stamp <- new_Date P;
           let metadata :=
             mkFileMetadata fileId (originalname file) (originalname file)
               (mimetype file) (file_size file)
               (key uploadResult) (bucket uploadResult)
               (toISOString stamp) userMetadata None UPLOADED in
           do_ DynamoDBService.saveMetadata P metadata;
           do_ DynamoDBService.updateFileStatus P fileId PROCESSING;
           respond 201 (Uploaded fileId (js "File uploaded successfully"))
     end)
    "Internal server error during upload".

Definition getMetadata (fileId : jsstring) : World -> Response * World :=
  guarded
    (if negb (uuid_test fileId) then
       respond 400 (Failed (js "Invalid file ID format"))
     else
       do metadata <- DynamoDBService.getMetadata P fileId;
       match metadata with
       | None => respond 404 (Failed (js "File not found"))
       | Some metadata => respond 200 (Found metadata)
       end)
    "Internal server error while retrieving metadata".

Definition deleteFile (fileId : jsstring) : World -> Response * World :=
  guarded
    (do metadata <- DynamoDBService.getMetadata P fileId;
     match metadata with
     | None => respond 404 (Failed (js "File not found"))
     | Some metadata =>
         do_ S3Service.deleteFile P (s3Key metadata);
         do_ DynamoDBService.deleteMetadata P fileId;
         respond 200 (Succeeded (js "File deleted successfully"))
     end)
    "Internal server error while deleting file".

Definition getDownloadUrl (fileId : jsstring) : World -> Response * World :=
  guarded
    (do metadata <- DynamoDBService.getMetadata P fileId;
     match metadata with
     | None => respond 404 (Failed (js "File not found"))
     | Some metadata =>
         do downloadUrl <- S3Service.getPresignedUrl P (s3Key metadata) 3600;
         respond 200 (DownloadLink downloadUrl 3600)
     end)
    "Internal server error while generating download URL".

End WithPlatform.
End FileController.

(** ** middleware: upload.ts, errorHandler.ts, and the route of app.ts *)

(** The errors that travel through [next(error)]. *)
Inductive RouteError :=
  | AppError (message : jsstring) (statusCode : N)
  | MulterError (code : jsstring)
  | OtherError (name message : jsstring).

(** [config.upload] *)
Definition config_allowedMimeTypes : list jsstring :=
  [ js "application/pdf";
    js "image/jpeg";
    js "image/png";
    js "image/gif";
    js "image/webp";
    js "text/plain";
    js "application/msword";
    js "application/vnd.openxmlformats-officedocument.wordprocessingml.document" ].

Definition config_maxFileSize : N := 50 * 1024 * 1024.

(** [fileFilter]: [None] accepts the file. *)
Definition fileFilter (file : MulterFile) : option RouteError :=
  if includes config_allowedMimeTypes (mimetype file) then None
  else Some (AppError (js "Invalid file type") 400).

(** [uploadSingle], multer's middleware for the single field [file] as
    configured in upload.ts: the file filter is asked first, and a file
    larger than [limits.fileSize] is reported as [LIMIT_FILE_SIZE]. *)
Definition uploadSingle (req : UploadRequest) : option RouteError :=
  match req_file req with
  | None => None
  | Some file =>
      match fileFilter file with
      | Some e => Some e
      | None =>
          if config_maxFileSize <? file_size file
          then Some (MulterError (js "LIMIT_FILE_SIZE"))
          else None
      end
  end.

(** [errorHandler] *)
Definition errorHandler (error : RouteError) : Response :=
  let '(statusCode, message) :=
    match error with
    | AppError message statusCode => (statusCode, message)
    | _ => (500, js "Internal Server Error")
    end in
  let name :=
    match error with
    | AppError _ _ => js "Error"
    | MulterError _ => js "MulterError"
    | OtherError name _ => name
    end in
  let '(statusCode, message) :=
    if jsstring_eqb name (js "ValidationError")
    then (400, js "Validation Error") else (statusCode, message) in
  let '(statusCode, message) :=
    if jsstring_eqb name (js "MulterError")
    then (400, js "File upload error") else (statusCode, message) in
  mkResponse statusCode (ApiError message statusCode).

(** [handleMulterError]; an error it does not answer goes on to
    [errorHandler]. *)
Definition handleMulterError (error : RouteError) : Response :=
  match error with
  | MulterError code =>
      if jsstring_eqb code (js "LIMIT_FILE_SIZE") then
        mkResponse 400 (Failed (js "File too large. Maximum size is 50MB"))
      else if jsstring_eqb code (js "LIMIT_FILE_COUNT") then
        mkResponse 400 (Failed (js "Too many files. Upload one file at a time"))
      else if jsstring_eqb code (js "LIMIT_UNEXPECTED_FILE") then
        mkResponse 400
          (Failed (js "Unexpected field name. Use " ++ [ch_quote] ++ js "file"
                     ++ [ch_quote] ++ js " field for upload"))
      else errorHandler error
  | _ => errorHandler error
  end.

(** [app.post('/upload', uploadSingle, handleMulterError, uploadFile)] *)
Definition post_upload (P : Platform) (req : UploadRequest)
  : World -> Response * World :=
  fun w =>
    match uploadSingle req with
    | Some error => (handleMulterError error, w)
    | None => FileController.uploadFile P req w
    end.

(** ** An example platform and example inputs

    The statements below hold for every platform; this one runs them. *)

Module Demo.

(** *** A reader for JSON texts

    Objects, arrays, strings with the escapes of one character, integers
    and the three literals; the examples use no other JSON. *)

Definition is_json_space (c : N) : bool :=
  (c =? 32) || (c =? 9) || (c =? 10) || (c =? 13).

Fixpoint skip_ws (s : jsstring) : jsstring :=
  match s with
  | c :: s' => if is_json_space c then skip_ws s' else s
  | [] => []
  end.

(** The characters after an opening quote, up to the closing one. *)
Fixpoint read_string (s : jsstring) : option (jsstring * jsstring) :=
  match s with
  | [] => None
  | c :: s' =>
      if c =? ch_quote then Some ([], s')
      else if c <? 32 then None
      else if c =? 92 then
        match s' with
        | e :: s'' =>
            let unescaped :=
              if (e =? ch_quote) || (e =? 92) || (e =? ch_slash) then Some e
              else if e =? 110 then Some 10
              else if e =? 116 then Some 9
              else if e =? 114 then Some 13
              else None in
            match unescaped, read_string s'' with
            | Some u, Some (str, rest) => Some (u :: str, rest)
            | _, _ => None
            end
        | [] => None
        end
      else
        match read_string s' with
        | Some (str, rest) => Some (c :: str, rest)
        | None => None
        end
  end.

Fixpoint read_digits (acc : Z) (s : jsstring) : Z * jsstring :=
  match s with
  | c :: s' =>
      if is_digit c then read_digits (10 * acc + Z.of_N (c - 48))%Z s'
      else (acc, s)
  | [] => (acc, [])
  end.

Definition read_integer (s : jsstring) : option (JSValue * jsstring) :=
  let '(negative, s1) :=
    match s with
    | c :: s' => if c =? ch_dash then (true, s') else (false, s)
    | [] => (false, s)
    end in
  match s1 with
  | c :: _ =>
      if is_digit c then
        let '(n, rest) := read_digits 0%Z s1 in
        Some (JNumber (NFinite (if negative then (- n)%Z else n) 0%Z), rest)
      else None
  | [] => None
  end.

Definition read_literal (word : string) (v : JSValue) (s : jsstring)
  : option (JSValue * jsstring) :=
  if startsWith (js word) s then Some (v, drop (length (js word)) s) else None.

Fixpoint read_value (fuel : nat) (s : jsstring) : option (JSValue * jsstring) :=
  match fuel with
  | O => None
  | S fuel =>
      match skip_ws s with
      | [] => None
      | c :: s' =>
          if c =? 123 then
            match skip_ws s' with
            | d :: s'' =>
                if d =? 125 then Some (JObject [], s'')
                else
                  match read_members fuel (d :: s'') with
                  | Some (fields, rest) => Some (JObject fields, rest)
                  | None => None
                  end
            | [] => None
            end
          else if c =? 91 then
            match skip_ws s' with
            | d :: s'' =>
                if d =? 93 then Some (JArray [], s'')
                else
                  match read_items fuel (d :: s'') with
                  | Some (items, rest) => Some (JArray items, rest)
                  | None => None
                  end
            | [] => None
            end
          else if c =? ch_quote then
            match read_string s' with
            | Some (str, rest) => Some (JString str, rest)
            | None => None
            end
          else if c =? 116 then read_literal "true" (JBool true) (c :: s')
          else if c =? 102 then read_literal "false" (JBool false) (c :: s')
          else if c =? 110 then read_literal "null" JNull (c :: s')
          else read_integer (c :: s')
      end
  end
with read_members (fuel : nat) (s : jsstring)
  : option (list (jsstring * JSValue) * jsstring) :=
  match fuel with
  | O => None
  | S fuel =>
      match skip_ws s with
      | q :: s1 =>
          if q =? ch_quote then
            match read_string s1 with
            | Some (k, s2) =>
                match skip_ws s2 with
                | colon :: s3 =>
                    if colon =? 58 then
                      match read_value fuel s3 with
                      | Some (v, s4) =>
                          match skip_ws s4 with
                          | d :: s5 =>
                              if d =? 125 then Some ([(k, v)], s5)
                              else if d =? 44 then
                                match read_members fuel s5 with
                                | Some (fields, rest) =>
                                    Some ((k, v) :: fields, rest)
                                | None => None
                                end
                              else None
                          | [] => None
                          end
                      | None => None
                      end
                    else None
                | [] => None
                end
            | None => None
            end
          else None
      | [] => None
      end
  end
with read_items (fuel : nat) (s : jsstring)
  : option (list JSValue * jsstring) :=
  match fuel with
  | O => None
  | S fuel =>
      match read_value fuel s with
      | Some (v, s1) =>
          match skip_ws s1 with
          | d :: s2 =>
              if d =? 93 then Some ([v], s2)
              else if d =? 44 then
                match read_items fuel s2 with
                | Some (items, rest) => Some (v :: items, rest)
                | None => None
                end
              else None
          | [] => None
          end
      | None => None
      end
  end.

(** A later member of an object replaces an earlier one of the same key. *)
Fixpoint last_wins (fields : list (jsstring * JSValue))
  : list (jsstring * JSValue) :=
  match fields with
  | [] => []
  | (k, v) :: rest =>
      match get_field k rest with
      | Some _ => last_wins rest
      | None => (k, v) :: last_wins rest
      end
  end.

Definition parse (s : jsstring) : Result JSValue :=
  match read_value (S (length s)) s with
  | Some (v, rest) =>
      match skip_ws rest with
      | [] => Ok (match v with
                  | JObject fields => JObject (last_wins fields)
                  | _ => v
                  end)
      | _ :: _ => Throw (js "Unexpected non-whitespace character after JSON")
      end
  | None => Throw (js "Unexpected token in JSON")
  end.

(** *** The platform *)

(** Big-endian number of four bytes. *)
Definition be32 (bytes : list N) : N :=
  fold_left (fun acc b => acc * 256 + b) (take 4 bytes) 0.

(** Reads a PDF by its signature only. *)
Definition pdfParse (fileBuffer : Buffer) : Result PdfData :=
  if startsWith (js "%PDF-") (List.map Byte.to_N fileBuffer)
  then Ok (mkPdfData 1 [] None)
  else Throw (js "Invalid PDF structure").

(** Reads the header of a PNG image: signature, then width and height. *)
Definition sharp_metadata (fileBuffer : Buffer) : Result ImageData :=
  let bytes := List.map Byte.to_N fileBuffer in
  if startsWith [137; 80; 78; 71; 13; 10; 26; 10] bytes
     && (24 <=? length bytes)%nat
  then Ok (mkImageData (Some (be32 (drop 16 bytes)))
             (Some (be32 (drop 20 bytes)))
             (Some (js "png")) None None None None)
  else Throw (js "Input buffer contains unsupported image format").

(** Identity on a key without escapes; the examples use no other key. *)
Definition decodeURIComponent (s : jsstring) : Result jsstring :=
  if existsb (N.eqb 37) s then Throw (js "URI malformed") else Ok s.

Definition endpointUrl : jsstring := js "http://localhost:4566".
Definition bucketName : jsstring := js "upload-test-bucket".

Definition uuid_at (n : nat) : jsstring :=
  js "123e4567-e89b-42d3-a456-4266141740" ++ pad2 (N.of_nat n).

Definition clock_at (n : nat) : Date :=
  mkDate 2024 1 15 10 30 0 (N.of_nat n).

(** Texts of one fixed width compare as their instants do. *)
Fixpoint lex_ltb (a b : jsstring) : bool :=
  match a, b with
  | x :: a', y :: b' => (x <? y) || ((x =? y) && lex_ltb a' b')
  | [], _ :: _ => true
  | _, [] => false
  end.

Definition iso_pattern : list (N -> bool) :=
  repeat is_digit 4 ++ [is_char ch_dash] ++ repeat is_digit 2 ++
  [is_char ch_dash] ++ repeat is_digit 2 ++ [is_char ch_T] ++
  repeat is_digit 2 ++ [is_char 58] ++ repeat is_digit 2 ++ [is_char 58] ++
  repeat is_digit 2 ++ [is_char 90].

Definition isoGreaterNow (s : jsstring) : bool :=
  match_classes iso_pattern s && lex_ltb (js "2024-01-15T10:30:00Z") s.

Definition platform : Platform :=
  mkPlatform uuid_at clock_at (fun _ => None) parse decodeURIComponent
    pdfParse sharp_metadata
    (fun bucket key expiresIn =>
       Ok (endpointUrl ++ [ch_slash] ++ bucket ++ [ch_slash] ++ key
             ++ js "?X-Amz-Expires=3600"))
    (fun _ => None) isoGreaterNow bucketName endpointUrl.

(** The same platform with the SDK call at tick [k] failing. *)
Definition failing_at (k : nat) : Platform :=
  mkPlatform uuid_at clock_at
    (fun n => if (n =? k)%nat then Some (js "connect ECONNREFUSED") else None)
    parse decodeURIComponent pdfParse sharp_metadata
    (getSignedUrl platform) (fun _ => None) isoGreaterNow bucketName
    endpointUrl.

Definition empty_world : World := mkWorld ∅ ∅ [] 0.

(** *** Inputs *)

Definition a_uuid : jsstring := js "123e4567-e89b-42d3-a456-426614174000".

(** Ten lines, each closed by a newline. *)
Definition newline : string := String "010" EmptyString.

Definition ten_lines : Buffer :=
  bytes_of (String.concat EmptyString
    (List.map (fun d => String.append "line " (String.append d newline))
       ["1"; "2"; "3"; "4"; "5"; "6"; "7"; "8"; "9"; "10"]))%string.

(** The same lines without the newline after the last. *)
Definition ten_lines_unclosed : Buffer :=
  bytes_of (String.concat newline
    ["line 1"; "line 2"; "line 3"; "line 4"; "line 5";
     "line 6"; "line 7"; "line 8"; "line 9"; "line 10"])%string.

Definition text_file (name : string) (content : Buffer) : MulterFile :=
  mkMulterFile (js name) (js "text/plain") content (buffer_length content).

Definition hello : Buffer := bytes_of "hello world".

Definition notes : MulterFile := text_file "notes.txt" hello.

(** A text that is no JSON. *)
Definition malformed_request : UploadRequest :=
  mkUploadRequest (Some notes) (Some (js "{not json")).

(** An executable, outside the allow-list. *)
Definition executable_request : UploadRequest :=
  mkUploadRequest
    (Some (mkMulterFile (js "setup.exe") (js "application/x-msdownload")
             (bytes_of "MZ") 2))
    (Some (js "{}")).

(** A text file of one byte more than 50 MiB. *)
Definition oversize_request : UploadRequest :=
  mkUploadRequest
    (Some (mkMulterFile (js "big.txt") (js "text/plain") hello 52428801))
    None.

(** A file name with a space. *)
Definition spaced_name_request : UploadRequest :=
  mkUploadRequest (Some (text_file "my file.txt" hello)) None.

(** [{"author":"<n times the letter a>"}] *)
Definition author_json (n : nat) : jsstring :=
  js "{" ++ [ch_quote] ++ js "author" ++ [ch_quote] ++ js ":" ++ [ch_quote]
  ++ repeat 97 n ++ [ch_quote] ++ js "}".

(** A file declared as PDF that is none, the world after its upload,
    and the notification of its blob. *)
Definition corrupt_pdf_request : UploadRequest :=
  mkUploadRequest
    (Some (mkMulterFile (js "report.pdf") (js "application/pdf")
             (bytes_of "not a pdf") 9))
    None.

Definition corrupt_pdf_world : World :=
  snd (FileController.uploadFile platform corrupt_pdf_request empty_world).

Definition corrupt_pdf_key : jsstring :=
  js "uploads/2024-01-15/" ++ uuid_at 0 ++ js "/report.pdf".

Definition corrupt_pdf_event : S3EventRecord :=
  mkS3EventRecord bucketName corrupt_pdf_key.

(** A blob that the service did not write: its key has no id segment. *)
Definition foreign_key : jsstring := js "backups/db.sql".

Definition foreign_world : World :=
  mkWorld
    {[ (bucketName, foreign_key) :=
         mkS3Object (bytes_of "dump") (js "text/plain") [] ]}
    ∅ [] 0.

(** A blob under a key of the service whose record is gone. *)
Definition stray_key : jsstring :=
  js "uploads/2024-01-15/" ++ a_uuid ++ js "/notes.txt".

Definition stray_world : World :=
  mkWorld
    {[ (bucketName, stray_key) := mkS3Object hello (js "text/plain") [] ]}
    ∅ [] 0.

(** The world after the upload of [notes]. *)
Definition notes_request : UploadRequest := mkUploadRequest (Some notes) None.

Definition notes_world : World :=
  snd (post_upload platform notes_request empty_world).

Definition notes_key : jsstring :=
  js "uploads/2024-01-15/" ++ uuid_at 0 ++ js "/notes.txt".

(** An author of 256 characters, one more than the schema allows. *)
Definition long_author : JSValue :=
  JObject [(js "author", JString (repeat 97 256))].

Definition long_author_request : UploadRequest :=
  mkUploadRequest (Some notes) (Some (author_json 256)).

End Demo.

(** ** Notions used by the statements *)

(** The date part [YYYY-MM-DD] of the ISO text of a date. *)
Definition iso_date (d : Date) : jsstring :=
  (if year d <=? 9999 then pad4 (year d) else ch_plus :: pad6 (year d))
  ++ [ch_dash] ++ pad2 (month d) ++ [ch_dash] ++ pad2 (day d).

(** No code unit of [s] is [c]. *)
Definition free_of (c : N) (s : jsstring) : Prop := Forall (fun x => x ≠ c) s.

(** The two answers of the metadata query to an id without a record. *)
Definition bad_request_id : Response :=
  mkResponse 400 (Failed (js "Invalid file ID format")).

Definition not_found : Response :=
  mkResponse 404 (Failed (js "File not found")).

(** The ids of the table are of the identifier syntax. *)
Definition table_ids_wellformed (w : World) : Prop :=
  ∀ k, is_Some (table w !! k) → uuid_test k = true.

(** The commands of one upload, as far as it went: the blob, then the
    record with status [UPLOADED] that points to the blob, then the move
    to [PROCESSING]; a command is sent only after the one before it
    succeeded, and the upload is complete when all three did. *)
Inductive upload_trace : list (Command * bool) → bool → Prop :=
  | trace_nothing : upload_trace [] false
  | trace_blob_failed b k o :
      upload_trace [(PutObject b k o, false)] false
  | trace_record_failed b k o item :
      status item = UPLOADED → s3Key item = k →
      upload_trace [(PutObject b k o, true); (PutItem item, false)] false
  | trace_status_failed b k o item :
      status item = UPLOADED → s3Key item = k →
      upload_trace [(PutObject b k o, true); (PutItem item, true);
                    (UpdateItem (id item) (mkUpdates None (Some PROCESSING)),
                     false)] false
  | trace_complete b k o item :
      status item = UPLOADED → s3Key item = k →
      upload_trace [(PutObject b k o, true); (PutItem item, true);
                    (UpdateItem (id item) (mkUpdates None (Some PROCESSING)),
                     true)] true.

(** The value of [userMetadata] in [uploadFile]. *)
Definition parsed_userMetadata (P : Platform) (req : UploadRequest)
  : Result JSValue :=
  match req_userMetadata req with
  | Some field =>
      if jsstring_eqb field [] then Ok (JObject []) else JSON_parse P field
  | None => Ok (JObject [])
  end.

(** The answers of [uploadFile]. *)
Definition upload_failed : Response :=
  mkResponse 500 (Failed (js "Internal server error during upload")).

Definition upload_done (fileId : jsstring) : Response :=
  mkResponse 201 (Uploaded fileId (js "File uploaded successfully")).

(** The metadata map attached to the blob. *)
Definition blob_metadata (fileId : jsstring) (file : MulterFile)
  (author : option JSValue) : list (jsstring * JSValue) :=
  [ (js "fileId", JString fileId);
    (js "originalName", JString (originalname file));
    (js "uploadedBy", or_anonymous author) ].

(** The record written by [uploadFile]. *)
Definition upload_record (P : Platform) (fileId s3Key : jsstring)
  (file : MulterFile) (stamp : Date) (userMetadata : JSValue) : FileMetadata :=
  mkFileMetadata fileId (originalname file) (originalname file)
    (mimetype file) (file_size file) s3Key (config_bucket P)
    (toISOString stamp) userMetadata None UPLOADED.

(** The world after [n] effects that touch no store and send no command. *)
Definition later (n : nat) (w : World) : World :=
  mkWorld (objects w) (table w) (log w) (n + tick w).

(** The code units that [sanitizeFilename] lets stand or writes. *)
Definition sanitized_char (c : N) : bool :=
  filename_safe c || (c =? ch_underscore).

(** *** Counts of a text, as the specification words them *)

(** The white-space-delimited tokens of a text: its maximal runs of code
    units that are not white space. *)
Fixpoint count_tokens (s : jsstring) : nat :=
  match s with
  | [] => 0
  | x :: s' =>
      if is_space x then count_tokens s'
      else
        match s' with
        | [] => 1
        | y :: _ => if is_space y then S (count_tokens s') else count_tokens s'
        end
  end.

Definition starts_with_space (s : jsstring) : bool :=
  match s with
  | x :: _ => is_space x
  | [] => false
  end.

Definition ends_with_space (s : jsstring) : bool :=
  match last s with
  | Some x => is_space x
  | None => false
  end.

(** A text of lines, each closed by a newline. *)
Definition unlines (ls : list jsstring) : jsstring :=
  concat (List.map (fun l => l ++ [ch_newline]) ls).

(** The ten lines of [Demo.ten_lines]. *)
Definition ten_lines_text : list jsstring :=
  [js "line 1"; js "line 2"; js "line 3"; js "line 4"; js "line 5";
   js "line 6"; js "line 7"; js "line 8"; js "line 9"; js "line 10"].

(** The number of code units [c] in a text. *)
Definition occurrences (c : N) (s : jsstring) : nat :=
  length (List.filter (fun x => x =? c) s).

(** The segments that [split(/\s+/)] counts beyond the tokens: an empty
    one for white space at either end, and the one of the empty text. *)
Definition edge_segments (s : jsstring) : nat :=
  match s with
  | [] => 1
  | _ :: _ =>
      (if starts_with_space s then 1 else 0) +
      (if ends_with_space s then 1 else 0)
  end.

(** A computation that keeps the ids of the table well formed. *)
Definition keeps_ids {A} (m : M A) : Prop :=
  ∀ w, table_ids_wellformed w → table_ids_wellformed (snd (m w)).

(** No two neighbours of a text are both underscores. *)
Fixpoint no_double_underscore (s : jsstring) : bool :=
  match s with
  | [] => true
  | x :: s' =>
      match s' with
      | [] => true
      | y :: _ =>
          negb ((x =? ch_underscore) && (y =? ch_underscore))
          && no_double_underscore s'
      end
  end.

(** *** Measures of the UTF-8 decoder *)

(** The code units that a list of code points takes. *)
Definition units_of (codepoints : list N) : nat :=
  length (concat (List.map utf16_units codepoints)).

(** The bytes of an unfinished sequence that have produced nothing yet: at
    least one, two when the code point read so far is past those of a
    three-byte sequence, three when it is past those of the third byte of one. *)
Definition utf8_credit (st : option Utf8State) : nat :=
  match st with
  | None => 0
  | Some st =>
      match u_needed st with
      | 1%nat => if u_codepoint st <? 1024 then 1 else 3
      | 2%nat => if u_codepoint st <? 16 then 1 else 2
      | _ => 1
      end
  end.

(** The states that the decoder reaches. *)
Definition utf8_state_ok (st : option Utf8State) : Prop :=
  match st with
  | None => True
  | Some st =>
      (u_needed st = 1%nat ∧ u_codepoint st < 32768) ∨
      (u_needed st = 2%nat ∧ u_codepoint st < 512) ∨
      (u_needed st = 3%nat ∧ u_codepoint st < 8)
  end.

(** *** What a computation keeps of the two stores *)

(** The fields of a record that no update of the service sets. *)
Definition immutable_part (m : FileMetadata) :=
  (id m, originalName m, fileName m, mimeType m, size m, s3Key m,
   s3Bucket m, uploadedAt m, userMetadata m).

(** A computation that keeps a property of the objects and the table. *)
Definition keeps_stores
  (I : gmap (jsstring * jsstring) S3Object → gmap jsstring FileMetadata → Prop)
  {A} (m : M A) : Prop :=
  ∀ w, I (objects w) (table w) →
       I (objects (snd (m w))) (table (snd (m w))).

(** The objects are those of [w0], and so are the records but for their
    extracted metadata and status. *)
Definition same_but_extraction (w0 : World)
  (o : gmap (jsstring * jsstring) S3Object) (t : gmap jsstring FileMetadata)
  : Prop :=
  o = objects w0 ∧
  ∀ j, immutable_part <$> t !! j = immutable_part <$> table w0 !! j.

(** Both stores are those of [w0]. *)
Definition same_stores (w0 : World)
  (o : gmap (jsstring * jsstring) S3Object) (t : gmap jsstring FileMetadata)
  : Prop :=
  o = objects w0 ∧ t = table w0.

(** The answers of [deleteFile] and [getDownloadUrl]. *)
Definition delete_done : Response :=
  mkResponse 200 (Succeeded (js "File deleted successfully")).

Definition delete_failed : Response :=
  mkResponse 500 (Failed (js "Internal server error while deleting file")).

Definition download_failed : Response :=
  mkResponse 500
    (Failed (js "Internal server error while generating download URL")).

(** The pattern [YYYY-MM-DD]. *)
Definition date_pattern : list (N → bool) :=
  repeat is_digit 4 ++ [is_char ch_dash] ++ repeat is_digit 2 ++
  [is_char ch_dash] ++ repeat is_digit 2.

(** The three envelopes that [errorHandler] writes for an error that is
    no [AppError]. *)
Definition fixed_envelopes : list Response :=
  [ mkResponse 500 (ApiError (js "Internal Server Error") 500);
    mkResponse 400 (ApiError (js "Validation Error") 400);
    mkResponse 400 (ApiError (js "File upload error") 400) ].

(** A record with the time stamp that [saveMetadata] stores. *)
Definition with_uploadedAt (stamp : jsstring) (m : FileMetadata)
  : FileMetadata :=
  mkFileMetadata (id m) (originalName m) (fileName m) (mimeType m) (size m)
    (s3Key m) (s3Bucket m) stamp (userMetadata m) (extractedMetadata m)
    (status m).

(** A record with another status. *)
Definition with_status (s : FileStatus) (m : FileMetadata) : FileMetadata :=
  mkFileMetadata (id m) (originalName m) (fileName m) (mimeType m) (size m)
    (s3Key m) (s3Bucket m) (uploadedAt m) (userMetadata m)
    (extractedMetadata m) s.

(** * Properties *)

(** ** Strings and keys *)

Lemma js_app (a b : string) : js (a ++ b) = js a ++ js b.
Proof.
  unfold js. induction a as [|c a IH]; simpl; [done|]. by rewrite IH.
Qed.

Lemma jsstring_eqb_true (a b : jsstring) : jsstring_eqb a b = true ↔ a = b.
Proof. unfold jsstring_eqb. apply bool_decide_eq_true. Qed.

Lemma jsstring_eqb_false (a b : jsstring) : jsstring_eqb a b = false ↔ a ≠ b.
Proof. unfold jsstring_eqb. apply bool_decide_eq_false. Qed.

Lemma jsstring_eqb_refl (a : jsstring) : jsstring_eqb a a = true.
Proof. by apply jsstring_eqb_true. Qed.

Lemma split_char_not_nil (c : N) (s : jsstring) : split_char c s ≠ [].
Proof.
  induction s as [|x s IH]; simpl; [done|].
  destruct (x =? c); [done|]. by destruct (split_char c s).
Qed.

(** Splitting goes past a prefix without the separator. *)
Lemma split_char_app_sep (c : N) (a rest : jsstring) :
  free_of c a → split_char c (a ++ c :: rest) = a :: split_char c rest.
Proof.
  induction 1 as [|x a Hx _ IH]; simpl.
  - by rewrite N.eqb_refl.
  - apply N.eqb_neq in Hx. by rewrite Hx, IH.
Qed.

(** A string without the separator is its own single segment. *)
Lemma split_char_free (c : N) (a : jsstring) :
  free_of c a → split_char c a = [a].
Proof.
  induction 1 as [|x a Hx _ IH]; simpl; [done|].
  apply N.eqb_neq in Hx. by rewrite Hx, IH.
Qed.

Lemma digit_bounds (n : N) : 48 ≤ digit n ≤ 57.
Proof.
  unfold digit. pose proof (N.mod_upper_bound n 10 ltac:(lia)) as H.
  generalize dependent (n mod 10). intros; lia.
Qed.

Lemma digit_neq (n c : N) : c < 48 ∨ 57 < c → digit n ≠ c.
Proof. pose proof (digit_bounds n). lia. Qed.

Lemma iso_date_free (c : N) (d : Date) :
  c < 43 ∨ c = 44 ∨ c = 46 ∨ c = 47 ∨ 57 < c → free_of c (iso_date d).
Proof.
  intros Hc. unfold iso_date, free_of, pad6, pad4, pad3, pad2.
  destruct (year d <=? 9999); simpl;
    repeat (apply Forall_cons; split;
            [first [apply digit_neq; lia | unfold ch_dash, ch_plus; lia]|]);
    apply Forall_nil_2.
Qed.

Lemma toISOString_date (d : Date) :
  ∃ time, toISOString d = iso_date d ++ ch_T :: time.
Proof.
  unfold toISOString, iso_date. eexists.
  repeat rewrite <- app_assoc. simpl. reflexivity.
Qed.

Lemma toISOString_not_empty (d : Date) : toISOString d ≠ [].
Proof.
  destruct (toISOString_date d) as [time ->].
  unfold iso_date. destruct (year d <=? 9999); discriminate.
Qed.

(** The [timestamp] of [generateS3Key] is the date part. *)
Lemma generateS3Key_eq (now : Date) (filename fileId : jsstring) :
  generateS3Key now filename fileId =
  js "uploads" ++ ch_slash :: (iso_date now ++ ch_slash ::
    (fileId ++ ch_slash :: filename)).
Proof.
  unfold generateS3Key.
  destruct (toISOString_date now) as [time ->].
  rewrite split_char_app_sep by (apply iso_date_free; unfold ch_T; lia).
  simpl. change (js "uploads/") with (js "uploads" ++ [ch_slash]).
  by repeat rewrite <- app_assoc.
Qed.

Lemma uploads_free : free_of ch_slash (js "uploads").
Proof. unfold free_of. repeat constructor; by vm_compute. Qed.

(** The segments of a generated key: the prefix, the date, the id, and
    then the segments of the file name. *)
Lemma generateS3Key_segments (now : Date) (filename fileId : jsstring) :
  free_of ch_slash fileId →
  split_char ch_slash (generateS3Key now filename fileId) =
  js "uploads" :: iso_date now :: fileId :: split_char ch_slash filename.
Proof.
  intros Hid. rewrite generateS3Key_eq.
  rewrite split_char_app_sep by apply uploads_free.
  rewrite split_char_app_sep by (apply iso_date_free; unfold ch_slash; lia).
  by rewrite split_char_app_sep.
Qed.

(** C2: the id is the segment at index 2 of the key generated for it,
    whatever the file name; ids are UUIDs and hold no slash
    ([uuid_free_of_slash]). *)
Theorem generateS3Key_recovers_id (now : Date) (filename fileId : jsstring) :
  free_of ch_slash fileId →
  split_char ch_slash (generateS3Key now filename fileId) !! 2%nat
  = Some fileId.
Proof.
  intros Hid. by rewrite generateS3Key_segments.
Qed.

(** C2, at a version-4 identifier and a file name with a slash. *)
Lemma generateS3Key_recovers_id_witness :
  split_char ch_slash
    (generateS3Key (Demo.clock_at 0) (js "a b/c.txt") Demo.a_uuid) !! 2%nat
  = Some Demo.a_uuid.
Proof.
  apply generateS3Key_recovers_id.
  unfold free_of. repeat constructor; by vm_compute.
Defined.

(** ** Character classes and the identifier pattern *)






(** ** The services, call by call *)

Section ServiceLemmas.

Variable P : Platform.

Lemma send_ok {A} (cmd : Command) (run : World → Result A * World) (w : World) :
  sdk_fault P (tick w) = None →
  send P cmd run w =
  (fst (run (advance w)),
   record_call cmd (is_ok (fst (run (advance w)))) (snd (run (advance w)))).
Proof. intros H. unfold send. rewrite H. by destruct (run (advance w)). Qed.

Lemma send_fault {A} (cmd : Command) (run : World → Result A * World)
  (w : World) (message : jsstring) :
  sdk_fault P (tick w) = Some message →
  send P cmd run w = (Throw message, record_call cmd false (advance w)).
Proof. intros H. unfold send. by rewrite H. Qed.

Lemma getMetadata_ok (fileId : jsstring) (w : World) :
  sdk_fault P (tick w) = None →
  DynamoDBService.getMetadata P fileId w =
  (Ok (table w !! fileId), record_call (GetItem fileId) true (advance w)).
Proof.
  intros H. unfold DynamoDBService.getMetadata, rethrow, try_catch.
  by rewrite send_ok.
Qed.

Lemma getMetadata_fault (fileId message : jsstring) (w : World) :
  sdk_fault P (tick w) = Some message →
  DynamoDBService.getMetadata P fileId w =
  (Throw (js "Failed to get metadata from DynamoDB: " ++ message),
   record_call (GetItem fileId) false (advance w)).
Proof.
  intros H. unfold DynamoDBService.getMetadata, rethrow, try_catch.
  by rewrite (send_fault _ _ _ message).
Qed.

End ServiceLemmas.

(** ** Queries *)

Section Queries.

Variable P : Platform.

(** C6: an id outside the identifier syntax is answered 400 with the world
    untouched, no command sent; an id of the syntax without a record is
    answered 404 after the one lookup; the two answers differ. *)
Theorem getMetadata_bad_request_or_not_found (fileId : jsstring) (w : World) :
  (uuid_test fileId = false →
   FileController.getMetadata P fileId w = (bad_request_id, w)) ∧
  (uuid_test fileId = true →
   sdk_fault P (tick w) = None →
   table w !! fileId = None →
   FileController.getMetadata P fileId w =
   (not_found, record_call (GetItem fileId) true (advance w))) ∧
  statusCode bad_request_id ≠ statusCode not_found.
Proof.
  unfold FileController.getMetadata, guarded, bind, respond, ret.
  split; [|split].
  - by intros ->.
  - intros -> Hok Hnone. simpl. by rewrite getMetadata_ok, Hnone.
  - done.
Qed.

(** C10: for an id outside the identifier syntax, which names no record,
    delete and download go to the lookup and answer 404, where the
    metadata query answers 400 without a lookup. *)
Theorem delete_and_download_skip_syntax_check (fileId : jsstring) (w : World) :
  uuid_test fileId = false →
  table_ids_wellformed w →
  sdk_fault P (tick w) = None →
  FileController.deleteFile P fileId w =
    (not_found, record_call (GetItem fileId) true (advance w)) ∧
  FileController.getDownloadUrl P fileId w =
    (not_found, record_call (GetItem fileId) true (advance w)) ∧
  FileController.getMetadata P fileId w = (bad_request_id, w).
Proof.
  intros Hbad Hinv Hok.
  assert (table w !! fileId = None) as Hnone.
  { destruct (table w !! fileId) eqn:E; [|done].
    specialize (Hinv fileId). rewrite E in Hinv.
    rewrite Hinv in Hbad by eauto. discriminate. }
  unfold FileController.deleteFile, FileController.getDownloadUrl,
    FileController.getMetadata, guarded, bind, respond, ret.
  rewrite getMetadata_ok, Hnone, Hbad by done. done.
Qed.

End Queries.

(** ** Uploads *)

Section Uploads.

Variable P : Platform.

Lemma s3_uploadFile_ok (k : jsstring) (fileBuffer : Buffer)
  (mimeType : jsstring) (metadata : list (jsstring * JSValue)) (w : World) :
  sdk_fault P (tick w) = None →
  ∃ result,
    key result = k ∧ bucket result = config_bucket P ∧
    S3Service.uploadFile P k fileBuffer mimeType metadata w =
    (Ok result,
     record_call
       (PutObject (config_bucket P) k (mkS3Object fileBuffer mimeType metadata))
       true
       (set_objects
          <[(config_bucket P, k) := mkS3Object fileBuffer mimeType metadata]>
          (advance w))).
Proof.
  intros H. eexists. split; [|split]; cycle 2.
  - unfold S3Service.uploadFile, rethrow, try_catch, bind, ret.
    rewrite send_ok by done. simpl. reflexivity.
  - done.
  - done.
Qed.

Lemma s3_uploadFile_fault (k : jsstring) (fileBuffer : Buffer)
  (mimeType : jsstring) (metadata : list (jsstring * JSValue)) (w : World)
  (message : jsstring) :
  sdk_fault P (tick w) = Some message →
  S3Service.uploadFile P k fileBuffer mimeType metadata w =
  (Throw (js "Failed to upload file to S3: " ++ message),
   record_call
     (PutObject (config_bucket P) k (mkS3Object fileBuffer mimeType metadata))
     false (advance w)).
Proof.
  intros H. unfold S3Service.uploadFile, rethrow, try_catch, bind, throw.
  by rewrite (send_fault _ _ _ _ message).
Qed.

Lemma saveMetadata_ok (m : FileMetadata) (w : World) :
  uploadedAt m ≠ [] →
  sdk_fault P (tick w) = None →
  DynamoDBService.saveMetadata P m w =
  (Ok tt, record_call (PutItem m) true (set_table <[id m := m]> (advance w))).
Proof.
  intros Hstamp H.
  unfold DynamoDBService.saveMetadata, rethrow, try_catch, bind, ret.
  apply jsstring_eqb_false in Hstamp. rewrite Hstamp.
  rewrite send_ok by done. by destruct m.
Qed.

Lemma saveMetadata_fault (m : FileMetadata) (w : World) (message : jsstring) :
  uploadedAt m ≠ [] →
  sdk_fault P (tick w) = Some message →
  DynamoDBService.saveMetadata P m w =
  (Throw (js "Failed to save metadata to DynamoDB: " ++ message),
   record_call (PutItem m) false (advance w)).
Proof.
  intros Hstamp H.
  unfold DynamoDBService.saveMetadata, rethrow, try_catch, bind, ret, throw.
  apply jsstring_eqb_false in Hstamp. rewrite Hstamp.
  rewrite (send_fault _ _ _ _ message) by done. by destruct m.
Qed.

Lemma updateMetadata_ok (fileId : jsstring) (u : Updates) (w : World) :
  sdk_fault P (tick w) = None →
  DynamoDBService.updateMetadata P fileId u w =
  (Ok tt,
   record_call (UpdateItem fileId u) true
     (set_table (alter (DynamoDBService.apply_updates u) fileId) (advance w))).
Proof.
  intros H. unfold DynamoDBService.updateMetadata, rethrow, try_catch.
  by rewrite send_ok.
Qed.

Lemma updateMetadata_fault (fileId : jsstring) (u : Updates) (w : World)
  (message : jsstring) :
  sdk_fault P (tick w) = Some message →
  DynamoDBService.updateMetadata P fileId u w =
  (Throw (js "Failed to update metadata in DynamoDB: " ++ message),
   record_call (UpdateItem fileId u) false (advance w)).
Proof.
  intros H. unfold DynamoDBService.updateMetadata, rethrow, try_catch, throw.
  by rewrite (send_fault _ _ _ _ message).
Qed.

(** [uploadFile] on a request that passes its checks, step by step. *)
Lemma uploadFile_steps (req : UploadRequest) (file : MulterFile)
  (um : JSValue) (w : World) :
  req_file req = Some file →
  parsed_userMetadata P req = Ok um →
  validateFileType (mimetype file) = true →
  validateFileSize (file_size file) defaultMaxSize = true →
  let fileId := uuidv4_at P (tick w) in
  let k := generateS3Key (now_at P (S (tick w))) (originalname file) fileId in
  let item := upload_record P fileId k file (now_at P (3 + tick w)) um in
  FileController.uploadFile P req w =
  match read_author um with
  | Throw _ => (upload_failed, later 2 w)
  | Ok author =>
      let obj := mkS3Object (buffer file) (mimetype file)
                   (blob_metadata fileId file author) in
      let put := PutObject (config_bucket P) k obj in
      match sdk_fault P (2 + tick w) with
      | Some _ => (upload_failed, record_call put false (later 3 w))
      | None =>
          let w1 := record_call put true
                      (set_objects <[(config_bucket P, k) := obj]> (later 3 w)) in
          match sdk_fault P (4 + tick w) with
          | Some _ =>
              (upload_failed, record_call (PutItem item) false (later 2 w1))
          | None =>
              let w2 := record_call (PutItem item) true
                          (set_table <[fileId := item]> (later 2 w1)) in
              let update :=
                UpdateItem fileId (mkUpdates None (Some PROCESSING)) in
              match sdk_fault P (5 + tick w) with
              | Some _ => (upload_failed, record_call update false (later 1 w2))
              | None =>
                  (upload_done fileId,
                   record_call update true
                     (set_table
                        (alter (DynamoDBService.apply_updates
                                  (mkUpdates None (Some PROCESSING))) fileId)
                        (later 1 w2)))
              end
          end
      end
  end.
Proof.
  intros Hfile Hum Htype Hsize fileId k item.
  unfold FileController.uploadFile, guarded. rewrite Hfile.
  unfold parsed_userMetadata in Hum.
  unfold bind at 1.
  assert ((match req_userMetadata req with
           | Some field =>
               if jsstring_eqb field [] then ret (JObject [])
               else lift (JSON_parse P field)
           | None => ret (JObject [])
           end) w = (Ok um, w)) as ->.
  { destruct (req_userMetadata req) as [field|]; [|by inversion Hum].
    destruct (jsstring_eqb field []); [by inversion Hum|].
    unfold lift. by rewrite Hum. }
  rewrite Htype, Hsize. change (negb true) with false. cbv iota.
  unfold bind at 1, uuidv4. unfold bind at 1, new_Date.
  unfold bind at 1, lift. cbv beta iota.
  destruct (read_author um) as [author|e]; [|done].
  change (tick (advance w)) with (S (tick w)).
  fold fileId. fold k.
  unfold bind at 1.
  destruct (sdk_fault P (2 + tick w)) as [m1|] eqn:F1.
  { rewrite (s3_uploadFile_fault _ _ _ _ _ m1) by done. done. }
  destruct (s3_uploadFile_ok k (buffer file) (mimetype file)
              (blob_metadata fileId file author) (advance (advance w)))
    as (result & Hk & Hb & Hput); [done|].
  unfold blob_metadata in Hput. rewrite Hput.
  unfold bind at 1, new_Date. unfold bind at 1. cbv beta iota.
  rewrite Hk, Hb.
  change (tick (record_call _ _ (set_objects _ (advance (advance w)))))
    with (2 + tick w)%nat.
  match goal with
  | |- context [DynamoDBService.saveMetadata P ?m] =>
      change m with item
  end.
  destruct (sdk_fault P (4 + tick w)) as [m2|] eqn:F2.
  { rewrite (saveMetadata_fault _ _ m2);
      [done|apply toISOString_not_empty|done]. }
  rewrite saveMetadata_ok; [|apply toISOString_not_empty|done].
  unfold bind at 1, DynamoDBService.updateFileStatus.
  destruct (sdk_fault P (5 + tick w)) as [m3|] eqn:F3.
  { rewrite (updateMetadata_fault _ _ _ m3) by done. done. }
  rewrite updateMetadata_ok by done. done.
Qed.


(** [uploadFile] on a request that fails a check: nothing is touched. *)
Lemma uploadFile_no_file (req : UploadRequest) (w : World) :
  req_file req = None →
  FileController.uploadFile P req w =
  (mkResponse 400 (Failed (js "No file uploaded")), w).
Proof.
  intros H. unfold FileController.uploadFile, guarded. by rewrite H.
Qed.

Lemma uploadFile_checks (req : UploadRequest) (file : MulterFile) (w : World) :
  req_file req = Some file →
  (validateFileType (mimetype file) = false ∨
   validateFileSize (file_size file) defaultMaxSize = false) →
  FileController.uploadFile P req w =
  match parsed_userMetadata P req with
  | Throw _ => (upload_failed, w)
  | Ok _ =>
      if validateFileType (mimetype file)
      then (mkResponse 400 (Failed (js "File too large. Maximum size is 50MB")),
            w)
      else (mkResponse 400 (Failed (js
              "Invalid file type. Allowed types: PDF, Images (JPEG, PNG, GIF, WebP), Text, Word documents")),
            w)
  end.
Proof.
  intros Hfile Hbad.
  unfold FileController.uploadFile, guarded, parsed_userMetadata.
  rewrite Hfile. unfold bind at 1.
  destruct (req_userMetadata req) as [field|]; unfold ret, lift;
    [destruct (jsstring_eqb field []); [|destruct (JSON_parse P field)]|];
    try done;
    destruct (validateFileType (mimetype file)); try done;
    destruct Hbad as [|Hsize]; try done; by rewrite Hsize.
Qed.

Lemma uploadFile_parse_error (req : UploadRequest) (file : MulterFile)
  (message : jsstring) (w : World) :
  req_file req = Some file →
  parsed_userMetadata P req = Throw message →
  FileController.uploadFile P req w = (upload_failed, w).
Proof.
  intros Hfile Hum.
  unfold FileController.uploadFile, guarded, parsed_userMetadata in *.
  rewrite Hfile. unfold bind at 1.
  destruct (req_userMetadata req) as [field|]; [|done].
  destruct (jsstring_eqb field []); [done|].
  unfold lift. by rewrite Hum.
Qed.

(** C8: the commands that one upload adds to the log are the blob write,
    then the record write with status UPLOADED, then the update to
    PROCESSING, each sent only after the one before it succeeded; the
    answer is 201 exactly when all three succeeded. *)
Theorem upload_effects_in_order (req : UploadRequest) (w : World) :
  ∃ trace complete,
    log (snd (FileController.uploadFile P req w)) = log w ++ trace ∧
    upload_trace trace complete ∧
    (statusCode (fst (FileController.uploadFile P req w)) = 201
     ↔ complete = true).
Proof.
  destruct (req_file req) as [file|] eqn:Hfile.
  2:{ rewrite uploadFile_no_file by done. exists [], false. simpl.
      rewrite app_nil_r. split_and!; [done|constructor|done]. }
  destruct (parsed_userMetadata P req) as [um|e] eqn:Hum.
  2:{ rewrite (uploadFile_parse_error _ file e) by done. exists [], false.
      simpl. rewrite app_nil_r. split_and!; [done|constructor|done]. }
  destruct (validateFileType (mimetype file)) eqn:Htype.
  2:{ rewrite (uploadFile_checks _ file), Hum, Htype by auto.
      exists [], false. simpl. rewrite app_nil_r.
      split_and!; [done|constructor|done]. }
  destruct (validateFileSize (file_size file) defaultMaxSize) eqn:Hsize.
  2:{ rewrite (uploadFile_checks _ file), Hum, Htype by auto.
      exists [], false. simpl. rewrite app_nil_r.
      split_and!; [done|constructor|done]. }
  rewrite (uploadFile_steps _ file um) by done.
  destruct (read_author um) as [author|e].
  2:{ exists [], false. simpl. rewrite app_nil_r.
      split_and!; [done|constructor|done]. }
  destruct (sdk_fault P (2 + tick w)).
  { eexists [_], false. simpl. split_and!; [done|constructor|done]. }
  destruct (sdk_fault P (4 + tick w)).
  { eexists [_; _], false. simpl. rewrite <- app_assoc.
    split_and!; [done|by constructor|done]. }
  destruct (sdk_fault P (5 + tick w)).
  { eexists [_; _; _], false. simpl. repeat rewrite <- app_assoc.
    split_and!; [done| |done].
    by apply (trace_status_failed _ _ _
                (upload_record P _ _ file _ um)). }
  eexists [_; _; _], true. simpl. repeat rewrite <- app_assoc.
  split_and!; [done| |done].
  by apply (trace_complete _ _ _ (upload_record P _ _ file _ um)).
Qed.


(** The middleware lets through what the controller's own checks accept. *)
Lemma fileFilter_validateFileType (file : MulterFile) :
  fileFilter file =
  if validateFileType (mimetype file) then None
  else Some (AppError (js "Invalid file type") 400).
Proof. reflexivity. Qed.

Lemma uploadSingle_pass (req : UploadRequest) (file : MulterFile) :
  req_file req = Some file →
  validateFileType (mimetype file) = true →
  validateFileSize (file_size file) defaultMaxSize = true →
  uploadSingle req = None.
Proof.
  intros Hfile Htype Hsize. unfold uploadSingle.
  rewrite Hfile, fileFilter_validateFileType, Htype.
  unfold validateFileSize, defaultMaxSize in Hsize. unfold config_maxFileSize.
  apply N.leb_le in Hsize.
  destruct (50 * 1024 * 1024 <? file_size file) eqn:E; [|done].
  apply N.ltb_lt in E. lia.
Qed.

(** C7: an upload whose type is outside the allow-list, or whose size is
    over 50 MiB, is answered 400 by the route with the world untouched: no
    blob, no record, no command.  The controller on its own leaves the
    world untouched too, and answers 400 unless the metadata text fails to
    parse before its checks. *)
Theorem invalid_upload_rejected (req : UploadRequest) (file : MulterFile)
  (w : World) :
  req_file req = Some file →
  validateFileType (mimetype file) = false ∨ defaultMaxSize < file_size file →
  (∃ b, post_upload P req w = (mkResponse 400 b, w)) ∧
  snd (FileController.uploadFile P req w) = w ∧
  (statusCode (fst (FileController.uploadFile P req w)) = 400 ∨
   ∃ message, parsed_userMetadata P req = Throw message).
Proof.
  intros Hfile Hbad. split.
  - unfold post_upload, uploadSingle.
    rewrite Hfile, fileFilter_validateFileType.
    destruct (validateFileType (mimetype file)) eqn:Htype.
    + destruct Hbad as [|Hsize]; [done|].
      unfold defaultMaxSize in Hsize. unfold config_maxFileSize.
      apply N.ltb_lt in Hsize. rewrite Hsize. simpl. eauto.
    + simpl. eauto.
  - assert (validateFileType (mimetype file) = false ∨
            validateFileSize (file_size file) defaultMaxSize = false) as Hbad'.
    { destruct Hbad as [|Hsize]; [by left|right].
      unfold validateFileSize. by apply N.leb_gt. }
    rewrite (uploadFile_checks _ file) by done.
    destruct (parsed_userMetadata P req); [|by eauto].
    destruct (validateFileType (mimetype file)); auto.
Qed.

(** C4 (as the code has it): a metadata text that does not parse makes the
    upload of an acceptable file answer 500, the answer of the catch-all,
    with nothing written. *)
Theorem malformed_userMetadata_answers_500 (req : UploadRequest)
  (file : MulterFile) (field message : jsstring) (w : World) :
  req_file req = Some file →
  req_userMetadata req = Some field →
  field ≠ [] →
  JSON_parse P field = Throw message →
  validateFileType (mimetype file) = true →
  validateFileSize (file_size file) defaultMaxSize = true →
  post_upload P req w = (upload_failed, w).
Proof.
  intros Hfile Hfield Hne Hparse Htype Hsize.
  unfold post_upload. rewrite (uploadSingle_pass _ file) by done.
  apply (uploadFile_parse_error _ file message); [done|].
  unfold parsed_userMetadata. rewrite Hfield.
  apply jsstring_eqb_false in Hne. by rewrite Hne.
Qed.

(** A complete upload: the answer and the two stores. *)
Lemma upload_complete (req : UploadRequest) (file : MulterFile)
  (um : JSValue) (author : option JSValue) (w : World) :
  req_file req = Some file →
  parsed_userMetadata P req = Ok um →
  read_author um = Ok author →
  validateFileType (mimetype file) = true →
  validateFileSize (file_size file) defaultMaxSize = true →
  sdk_fault P (2 + tick w) = None →
  sdk_fault P (4 + tick w) = None →
  sdk_fault P (5 + tick w) = None →
  let fileId := uuidv4_at P (tick w) in
  let k := generateS3Key (now_at P (S (tick w))) (originalname file) fileId in
  let item := upload_record P fileId k file (now_at P (3 + tick w)) um in
  let w' := snd (post_upload P req w) in
  fst (post_upload P req w) = upload_done fileId ∧
  objects w' =
    <[(config_bucket P, k) :=
        mkS3Object (buffer file) (mimetype file)
          (blob_metadata fileId file author)]> (objects w) ∧
  table w' =
    <[fileId := DynamoDBService.apply_updates
                  (mkUpdates None (Some PROCESSING)) item]> (table w) ∧
  tick w' = (6 + tick w)%nat.
Proof.
  intros Hfile Hum Hauthor Htype Hsize F1 F2 F3 fileId k item.
  unfold post_upload. rewrite (uploadSingle_pass _ file) by done.
  rewrite (uploadFile_steps _ file um) by done.
  rewrite Hauthor, F1, F2, F3. simpl.
  split_and!; [done..| |done].
  apply map_eq. intros j. rewrite lookup_alter.
  destruct (decide (fileId = j)) as [<-|Hne].
  - fold fileId. by rewrite decide_True, !lookup_insert_eq.
  - fold fileId. by rewrite decide_False, !lookup_insert_ne.
Qed.

(** C5 (as the code has it): a parsed metadata value, here one that the
    schema [uploadSchema] rejects, is accepted and stored as it is. *)
Theorem upload_ignores_uploadSchema (req : UploadRequest) (file : MulterFile)
  (um : JSValue) (author : option JSValue) (w : World) :
  uploadSchema (isoGreaterNow P) (Some um) = false →
  req_file req = Some file →
  parsed_userMetadata P req = Ok um →
  read_author um = Ok author →
  validateFileType (mimetype file) = true →
  validateFileSize (file_size file) defaultMaxSize = true →
  sdk_fault P (2 + tick w) = None →
  sdk_fault P (4 + tick w) = None →
  sdk_fault P (5 + tick w) = None →
  fst (post_upload P req w) = upload_done (uuidv4_at P (tick w)) ∧
  userMetadata <$> table (snd (post_upload P req w)) !! uuidv4_at P (tick w)
  = Some um.
Proof.
  intros _ Hfile Hum Hauthor Htype Hsize F1 F2 F3.
  destruct (upload_complete req file um author w) as (Hr & _ & Ht & _);
    try done.
  split; [done|]. rewrite Ht, lookup_insert_eq. done.
Qed.

(** C9 (as the code has it): the blob of a complete upload lies under the
    key made of the prefix, the date, the id and the original file name as
    it was sent; after the id come the segments of that name. *)
Theorem upload_key_keeps_original_name (req : UploadRequest)
  (file : MulterFile) (um : JSValue) (author : option JSValue) (w : World) :
  req_file req = Some file →
  parsed_userMetadata P req = Ok um →
  read_author um = Ok author →
  validateFileType (mimetype file) = true →
  validateFileSize (file_size file) defaultMaxSize = true →
  sdk_fault P (2 + tick w) = None →
  sdk_fault P (4 + tick w) = None →
  sdk_fault P (5 + tick w) = None →
  free_of ch_slash (uuidv4_at P (tick w)) →
  ∃ k,
    is_Some (objects (snd (post_upload P req w)) !! (config_bucket P, k)) ∧
    s3Key <$> table (snd (post_upload P req w)) !! uuidv4_at P (tick w)
    = Some k ∧
    split_char ch_slash k =
    js "uploads" :: iso_date (now_at P (S (tick w)))
      :: uuidv4_at P (tick w) :: split_char ch_slash (originalname file).
Proof.
  intros Hfile Hum Hauthor Htype Hsize F1 F2 F3 Hid.
  destruct (upload_complete req file um author w) as (_ & Ho & Ht & _);
    try done.
  eexists. split_and!.
  - rewrite Ho, lookup_insert_eq. eauto.
  - rewrite Ht, lookup_insert_eq. done.
  - by apply generateS3Key_segments.
Qed.

End Uploads.

(** ** The cases above, run on the example platform *)

Lemma empty_world_wellformed : table_ids_wellformed Demo.empty_world.
Proof. intros k [x Hx]. simpl in Hx. by rewrite lookup_empty in Hx. Qed.

(** C6, at a malformed id and at a well-formed id without a record. *)
Lemma getMetadata_bad_request_or_not_found_witness :
  FileController.getMetadata Demo.platform (js "invalid-id") Demo.empty_world
  = (bad_request_id, Demo.empty_world) ∧
  FileController.getMetadata Demo.platform Demo.a_uuid Demo.empty_world
  = (not_found,
     record_call (GetItem Demo.a_uuid) true (advance Demo.empty_world)).
Proof.
  split.
  - apply (proj1 (getMetadata_bad_request_or_not_found Demo.platform
                    (js "invalid-id") Demo.empty_world)).
    reflexivity.
  - apply (proj1 (proj2 (getMetadata_bad_request_or_not_found Demo.platform
                           Demo.a_uuid Demo.empty_world))).
    + reflexivity.
    + reflexivity.
    + apply lookup_empty.
Defined.

(** C10, at a malformed id. *)
Lemma delete_and_download_skip_syntax_check_witness :
  FileController.deleteFile Demo.platform (js "invalid-id") Demo.empty_world
  = (not_found,
     record_call (GetItem (js "invalid-id")) true (advance Demo.empty_world)) ∧
  FileController.getDownloadUrl Demo.platform (js "invalid-id") Demo.empty_world
  = (not_found,
     record_call (GetItem (js "invalid-id")) true (advance Demo.empty_world)) ∧
  FileController.getMetadata Demo.platform (js "invalid-id") Demo.empty_world
  = (bad_request_id, Demo.empty_world).
Proof.
  apply delete_and_download_skip_syntax_check.
  - reflexivity.
  - apply empty_world_wellformed.
  - reflexivity.
Defined.

(** C7, at an executable and at a text file of 50 MiB and one byte. *)
Lemma invalid_upload_rejected_witness :
  (∃ b, post_upload Demo.platform Demo.executable_request Demo.empty_world
        = (mkResponse 400 b, Demo.empty_world)) ∧
  (∃ b, post_upload Demo.platform Demo.oversize_request Demo.empty_world
        = (mkResponse 400 b, Demo.empty_world)).
Proof.
  split.
  - eapply (invalid_upload_rejected Demo.platform Demo.executable_request).
    + reflexivity.
    + left. reflexivity.
  - eapply (invalid_upload_rejected Demo.platform Demo.oversize_request).
    + reflexivity.
    + right. reflexivity.
Defined.

(** C4, at the text [{not json]. *)
Lemma malformed_userMetadata_answers_500_witness :
  post_upload Demo.platform Demo.malformed_request Demo.empty_world
  = (upload_failed, Demo.empty_world).
Proof.
  apply (malformed_userMetadata_answers_500 Demo.platform
           Demo.malformed_request Demo.notes (js "{not json")
           (js "Unexpected token in JSON")).
  - reflexivity.
  - reflexivity.
  - discriminate.
  - reflexivity.
  - reflexivity.
  - reflexivity.
Defined.

(** C5, at an author of 256 characters. *)
Lemma upload_ignores_uploadSchema_witness :
  fst (post_upload Demo.platform Demo.long_author_request Demo.empty_world)
  = upload_done (Demo.uuid_at 0) ∧
  userMetadata <$>
    table (snd (post_upload Demo.platform Demo.long_author_request
                  Demo.empty_world)) !! Demo.uuid_at 0
  = Some Demo.long_author.
Proof.
  apply (upload_ignores_uploadSchema Demo.platform Demo.long_author_request
           Demo.notes Demo.long_author
           (Some (JString (repeat 97 256))) Demo.empty_world).
  - vm_compute. reflexivity.
  - reflexivity.
  - vm_compute. reflexivity.
  - reflexivity.
  - reflexivity.
  - reflexivity.
  - reflexivity.
  - reflexivity.
  - reflexivity.
Defined.

(** C9, at the file name [my file.txt]. *)
Lemma upload_key_keeps_original_name_witness :
  ∃ k,
    is_Some (objects (snd (post_upload Demo.platform Demo.spaced_name_request
                             Demo.empty_world))
               !! (Demo.bucketName, k)) ∧
    s3Key <$>
      table (snd (post_upload Demo.platform Demo.spaced_name_request
                    Demo.empty_world)) !! Demo.uuid_at 0
    = Some k ∧
    split_char ch_slash k =
    [js "uploads"; js "2024-01-15"; Demo.uuid_at 0; js "my file.txt"].
Proof.
  apply (upload_key_keeps_original_name Demo.platform
           Demo.spaced_name_request (Demo.text_file "my file.txt" Demo.hello)
           (JObject []) None Demo.empty_world).
  - reflexivity.
  - reflexivity.
  - reflexivity.
  - reflexivity.
  - reflexivity.
  - reflexivity.
  - reflexivity.
  - reflexivity.
  - unfold free_of. repeat constructor; by vm_compute.
Defined.


(** ** The sanitizer of validation.ts *)

Lemma collapse_underscores_Forall (Q : N → Prop) (s : jsstring) :
  Forall Q s → Forall Q (collapse_underscores s).
Proof.
  induction 1 as [|x s Hx Hs IH]; simpl; [constructor|].
  destruct s as [|y s]; [by repeat constructor|].
  destruct ((x =? ch_underscore) && (y =? ch_underscore)); [done|].
  by constructor.
Qed.

Lemma strip_leading_underscore_Forall (Q : N → Prop) (s : jsstring) :
  Forall Q s → Forall Q (strip_leading_underscore s).
Proof.
  destruct 1 as [|x s Hx Hs]; simpl; [constructor|].
  destruct (x =? ch_underscore); [done|by constructor].
Qed.

Lemma strip_trailing_underscore_Forall (Q : N → Prop) (s : jsstring) :
  Forall Q s → Forall Q (strip_trailing_underscore s).
Proof.
  induction 1 as [|x s Hx Hs IH]; simpl; [constructor|].
  destruct s as [|y s].
  - destruct (x =? ch_underscore); by repeat constructor.
  - by constructor.
Qed.

Lemma forallb_of_Forall {A} (f : A → bool) (l : list A) :
  Forall (fun x => f x = true) l → forallb f l = true.
Proof. induction 1 as [|x l Hx _ IH]; simpl; [done|]. by rewrite Hx, IH. Qed.

(** Whatever the name, the sanitizer leaves letters, digits, dots, dashes
    and underscores only. *)
Lemma sanitizeFilename_chars (filename : jsstring) :
  forallb sanitized_char (sanitizeFilename filename) = true.
Proof.
  apply forallb_of_Forall. unfold sanitizeFilename.
  apply strip_trailing_underscore_Forall, strip_leading_underscore_Forall,
    collapse_underscores_Forall.
  apply Forall_fmap, Forall_forall. intros c _. simpl.
  unfold sanitized_char.
  destruct (filename_safe c) eqn:E; rewrite ?E; [done|].
  by vm_compute.
Qed.

(** The name [my file.txt] is not in that alphabet, and the sanitizer
    would have changed it. *)
Lemma sanitizeFilename_changes_name :
  sanitizeFilename (js "my file.txt") = js "my_file.txt" ∧
  forallb sanitized_char (js "my file.txt") = false.
Proof. vm_compute. repeat split. Qed.

(** ** The extraction Lambda *)

Section Extraction.

Variable P : Platform.

(** The extraction step returns, whatever the buffer and the type. *)
Lemma extractFileMetadata_never_throws (fileBuffer : Buffer)
  (mimeType : jsstring) :
  ∃ m, extractFileMetadata P fileBuffer mimeType = Ok m.
Proof.
  unfold extractFileMetadata, catch_result.
  destruct (extract_by_type P fileBuffer mimeType); eauto.
Qed.

Lemma extractFileMetadata_degrades (fileBuffer : Buffer)
  (mimeType message : jsstring) :
  extract_by_type P fileBuffer mimeType = Throw message →
  extractFileMetadata P fileBuffer mimeType =
  Ok (degraded_metadata fileBuffer mimeType message).
Proof. intros H. unfold extractFileMetadata. by rewrite H. Qed.

(** Only the PDF and the image branch can throw. *)
Lemma extract_by_type_throws (fileBuffer : Buffer)
  (mimeType message : jsstring) :
  extract_by_type P fileBuffer mimeType = Throw message →
  (mimeType = js "application/pdf" ∧ pdfParse P fileBuffer = Throw message) ∨
  (startsWith (js "image/") mimeType = true ∧
   sharp_metadata P fileBuffer = Throw message).
Proof.
  unfold extract_by_type.
  destruct (jsstring_eqb mimeType (js "application/pdf")) eqn:Epdf.
  { apply jsstring_eqb_true in Epdf.
    destruct (pdfParse P fileBuffer); [done|]. intros [= ->]. by left. }
  destruct (startsWith (js "image/") mimeType).
  { destruct (sharp_metadata P fileBuffer); [done|]. intros [= ->]. by right. }
  by destruct (jsstring_eqb mimeType (js "text/plain")).
Qed.

Lemma getFileFromS3_ok (bucketName objectKey : jsstring) (obj : S3Object)
  (w : World) :
  sdk_fault P (tick w) = None →
  objects w !! (bucketName, objectKey) = Some obj →
  getFileFromS3 P bucketName objectKey w =
  (Ok (Body obj), record_call (GetObject bucketName objectKey) true (advance w)).
Proof.
  intros H Hobj. unfold getFileFromS3. rewrite send_ok by done.
  simpl. by rewrite Hobj.
Qed.

(** [processS3Record] when the blob and the record are there and the three
    commands go through. *)
Lemma processS3Record_updates (record : S3EventRecord)
  (objectKey fileId : jsstring) (obj : S3Object) (item : FileMetadata)
  (extracted : ExtractedMetadata) (w : World) :
  decodeURIComponent P (replace_plus (s3_object_key record)) = Ok objectKey →
  objects w !! (s3_bucket_name record, objectKey) = Some obj →
  split_char ch_slash objectKey !! 2%nat = Some fileId →
  fileId ≠ [] →
  table w !! fileId = Some item →
  extractFileMetadata P (Body obj) (mimeType item) = Ok extracted →
  sdk_fault P (tick w) = None →
  sdk_fault P (1 + tick w) = None →
  sdk_fault P (2 + tick w) = None →
  processS3Record P record w =
  (Ok tt,
   record_call
     (UpdateItem fileId (mkUpdates (Some extracted) (Some PROCESSED))) true
     (set_table
        (alter (DynamoDBService.apply_updates
                  (mkUpdates (Some extracted) (Some PROCESSED))) fileId)
        (advance
           (record_call (GetItem fileId) true
              (advance
                 (record_call
                    (GetObject (s3_bucket_name record) objectKey) true
                    (advance w))))))).
Proof.
  intros Hkey Hobj Hid Hne Hitem Hext F1 F2 F3.
  unfold processS3Record. unfold bind at 1, lift. rewrite Hkey.
  unfold try_catch. unfold bind at 1.
  rewrite (getFileFromS3_ok _ _ obj) by done.
  rewrite Hid. apply jsstring_eqb_false in Hne. rewrite Hne.
  unfold bind at 1. rewrite getMetadata_ok by done.
  change (table (record_call _ _ (advance w))) with (table w).
  rewrite Hitem.
  unfold bind at 1, lift. rewrite Hext.
  unfold DynamoDBService.addExtractedMetadata.
  by rewrite updateMetadata_ok.
Qed.

(** C1: when the type-specific step throws, the extraction step returns
    the file type, the file size and the message of the error, and nothing
    else; the dispatcher throws nothing, and writes that result and the
    status PROCESSED into the record. *)
Theorem extraction_failure_degrades (record : S3EventRecord)
  (objectKey fileId message : jsstring) (obj : S3Object)
  (item : FileMetadata) (w : World) :
  decodeURIComponent P (replace_plus (s3_object_key record)) = Ok objectKey →
  objects w !! (s3_bucket_name record, objectKey) = Some obj →
  split_char ch_slash objectKey !! 2%nat = Some fileId →
  fileId ≠ [] →
  table w !! fileId = Some item →
  sdk_fault P (tick w) = None →
  sdk_fault P (1 + tick w) = None →
  sdk_fault P (2 + tick w) = None →
  extract_by_type P (Body obj) (mimeType item) = Throw message →
  let degraded :=
    mkExtracted (mimeType item) (buffer_length (Body obj))
      None None None None None None None None (Some message) in
  extractFileMetadata P (Body obj) (mimeType item) = Ok degraded ∧
  fst (processS3Record P record w) = Ok tt ∧
  extractedMetadata <$> table (snd (processS3Record P record w)) !! fileId
  = Some (Some degraded) ∧
  status <$> table (snd (processS3Record P record w)) !! fileId
  = Some PROCESSED.
Proof.
  intros Hkey Hobj Hid Hne Hitem F1 F2 F3 Hthrow degraded.
  pose proof (extractFileMetadata_degrades _ _ _ Hthrow) as Hext.
  rewrite (processS3Record_updates record objectKey fileId obj item degraded)
    by done.
  simpl. rewrite lookup_alter, decide_True, Hitem by done.
  by split_and!.
Qed.

End Extraction.

(** C1, at a file declared as PDF that is none, after its upload. *)
Lemma extraction_failure_degrades_witness :
  let degraded :=
    mkExtracted (js "application/pdf") 9
      None None None None None None None None
      (Some (js "Invalid PDF structure")) in
  extractFileMetadata Demo.platform (bytes_of "not a pdf")
    (js "application/pdf") = Ok degraded ∧
  fst (processS3Record Demo.platform Demo.corrupt_pdf_event
         Demo.corrupt_pdf_world) = Ok tt ∧
  extractedMetadata <$>
    table (snd (processS3Record Demo.platform Demo.corrupt_pdf_event
                  Demo.corrupt_pdf_world)) !! Demo.uuid_at 0
  = Some (Some degraded) ∧
  status <$>
    table (snd (processS3Record Demo.platform Demo.corrupt_pdf_event
                  Demo.corrupt_pdf_world)) !! Demo.uuid_at 0
  = Some PROCESSED.
Proof.
  apply (extraction_failure_degrades Demo.platform Demo.corrupt_pdf_event
           Demo.corrupt_pdf_key (Demo.uuid_at 0) (js "Invalid PDF structure")
           (mkS3Object (bytes_of "not a pdf") (js "application/pdf")
              (blob_metadata (Demo.uuid_at 0)
                 (mkMulterFile (js "report.pdf") (js "application/pdf")
                    (bytes_of "not a pdf") 9) None))
           (DynamoDBService.apply_updates (mkUpdates None (Some PROCESSING))
              (upload_record Demo.platform (Demo.uuid_at 0)
                 Demo.corrupt_pdf_key
                 (mkMulterFile (js "report.pdf") (js "application/pdf")
                    (bytes_of "not a pdf") 9)
                 (Demo.clock_at 3) (JObject [])))
           Demo.corrupt_pdf_world).
  - reflexivity.
  - vm_compute. reflexivity.
  - vm_compute. reflexivity.
  - discriminate.
  - vm_compute. reflexivity.
  - reflexivity.
  - reflexivity.
  - reflexivity.
  - vm_compute. reflexivity.
Defined.

(** ** The counts of the text analysis *)

(** [split(c)] yields one segment more than there are separators. *)
Lemma split_char_length (c : N) (s : jsstring) :
  length (split_char c s) = S (occurrences c s).
Proof.
  unfold occurrences. induction s as [|x s IH]; simpl; [done|].
  destruct (x =? c); simpl; [by rewrite IH|].
  pose proof (split_char_not_nil c s). destruct (split_char c s); [done|].
  simpl in *. done.
Qed.

(** A text of [n] lines, each closed by a newline, splits into those lines
    and one empty segment after the last newline. *)
Lemma split_char_unlines (ls : list jsstring) :
  Forall (free_of ch_newline) ls →
  split_char ch_newline (unlines ls) = ls ++ [[]].
Proof.
  unfold unlines. induction 1 as [|l ls Hl _ IH]; simpl; [done|].
  rewrite <- app_assoc. simpl. by rewrite split_char_app_sep, IH.
Qed.

Lemma split_whitespace_not_nil (s : jsstring) : split_whitespace s ≠ [].
Proof.
  induction s as [|x s IH]; simpl; [done|].
  destruct (is_space x).
  - destruct s as [|y s]; [done|]. by destruct (is_space y).
  - by destruct (split_whitespace s).
Qed.

(** [split(/\\s+/)] counts the tokens, and an empty segment for white
    space at either end of the text, and one segment for the empty text. *)
Lemma split_whitespace_length (s : jsstring) :
  length (split_whitespace s) = (count_tokens s + edge_segments s)%nat.
Proof.
  destruct s as [|x s]; [done|]. revert x.
  induction s as [|y s IH]; intros x.
  - unfold edge_segments, starts_with_space, ends_with_space. simpl.
    by destruct (is_space x).
  - specialize (IH y).
    assert (ends_with_space (x :: y :: s) = ends_with_space (y :: s)) as Hend
      by done.
    unfold edge_segments in *. rewrite Hend.
    change (starts_with_space (x :: y :: s)) with (is_space x).
    change (starts_with_space (y :: s)) with (is_space y) in IH.
    change (split_whitespace (x :: y :: s)) with
      (if is_space x then
         if is_space y then split_whitespace (y :: s)
         else [] :: split_whitespace (y :: s)
       else match split_whitespace (y :: s) with
            | seg :: rest => (x :: seg) :: rest
            | [] => [[x]]
            end).
    change (count_tokens (x :: y :: s)) with
      (if is_space x then count_tokens (y :: s)
       else if is_space y then S (count_tokens (y :: s))
            else count_tokens (y :: s)).
    pose proof (split_whitespace_not_nil (y :: s)) as Hne.
    destruct (is_space x), (is_space y);
      destruct (split_whitespace (y :: s)) eqn:E; try done;
      simpl in *; lia.
Qed.

(** The count of [split(/\\s+/)] is the count of tokens exactly for a text
    that is not empty and has no white space at either end. *)
Lemma split_whitespace_tokens (s : jsstring) :
  length (split_whitespace s) = count_tokens s ↔ edge_segments s = 0%nat.
Proof. rewrite split_whitespace_length. lia. Qed.

Section TextAnalysis.

Variable P : Platform.

(** What the text branch computes, for every buffer: the counts are taken
    on the whole text, the excerpt keeps 5000 code units. *)
Lemma text_analysis_counts (fileBuffer : Buffer) :
  let full := toString_utf8 fileBuffer in
  ∃ m,
    extractFileMetadata P fileBuffer (js "text/plain") = Ok m ∧
    textContent m = Some (take 5000 full) ∧
    textAnalysis m =
    Some (mkTextAnalysis
            (N.of_nat (S (occurrences ch_newline full)))
            (N.of_nat (count_tokens full + edge_segments full))
            (N.of_nat (length full))).
Proof.
  intros full. eexists. split_and!.
  - unfold extractFileMetadata, extract_by_type.
    change (jsstring_eqb (js "text/plain") (js "application/pdf")) with false.
    change (startsWith (js "image/") (js "text/plain")) with false.
    change (jsstring_eqb (js "text/plain") (js "text/plain")) with true.
    cbv beta iota. unfold catch_result. reflexivity.
  - done.
  - simpl. unfold array_length, js_length.
    by rewrite split_char_length, split_whitespace_length.
Qed.

(** C3 (as the code has it): for the file of ten lines, each closed by a
    newline, whose content has twenty tokens, the analysis reports eleven
    lines and twenty-one words; the characters are those of the text. *)
Theorem ten_line_file_counts :
  toString_utf8 Demo.ten_lines = unlines ten_lines_text ∧
  length ten_lines_text = 10%nat ∧
  count_tokens (toString_utf8 Demo.ten_lines) = 20%nat ∧
  length (toString_utf8 Demo.ten_lines) = 71%nat ∧
  ∃ m, extractFileMetadata P Demo.ten_lines (js "text/plain") = Ok m ∧
       textAnalysis m = Some (mkTextAnalysis 11 21 71).
Proof.
  split_and!; [by vm_compute..|].
  destruct (text_analysis_counts Demo.ten_lines) as (m & Hm & _ & Ha).
  exists m. split; [done|]. rewrite Ha. by vm_compute.
Qed.

End TextAnalysis.

(** The same ten lines without the newline after the last: ten lines and
    twenty words, as the content has them. *)
Lemma ten_lines_unclosed_counts (P : Platform) :
  count_tokens (toString_utf8 Demo.ten_lines_unclosed) = 20%nat ∧
  ∃ m, extractFileMetadata P Demo.ten_lines_unclosed (js "text/plain") = Ok m ∧
       textAnalysis m = Some (mkTextAnalysis 10 20 70).
Proof.
  split; [by vm_compute|].
  destruct (text_analysis_counts P Demo.ten_lines_unclosed)
    as (m & Hm & _ & Ha).
  exists m. split; [done|]. rewrite Ha. by vm_compute.
Qed.

(** ** The ids of the table *)

Lemma insert_keeps_wellformed (w : World) (k : jsstring) (v : FileMetadata)
  (t : gmap jsstring FileMetadata) :
  uuid_test k = true →
  (∀ j, is_Some (t !! j) → uuid_test j = true) →
  ∀ j, is_Some (<[k := v]> t !! j) → uuid_test j = true.
Proof.
  intros Hk Ht j. destruct (decide (k = j)) as [<-|Hne]; [done|].
  rewrite lookup_insert_ne by done. apply Ht.
Qed.

Lemma alter_keeps_wellformed (f : FileMetadata → FileMetadata) (k : jsstring)
  (t : gmap jsstring FileMetadata) :
  (∀ j, is_Some (t !! j) → uuid_test j = true) →
  ∀ j, is_Some (alter f k t !! j) → uuid_test j = true.
Proof.
  intros Ht j. rewrite lookup_alter. case_decide; [subst|apply Ht].
  intros H. apply Ht. by apply fmap_is_Some in H.
Qed.

Section TableIds.

Variable P : Platform.

Hypothesis uuidv4_wellformed : ∀ n, uuid_test (uuidv4_at P n) = true.

(** X30: when [uuidv4] yields ids of the identifier syntax, an upload
    leaves a table whose ids are of that syntax with ids of that syntax,
    whatever the request and the failures. *)
Lemma uploadFile_keeps_ids_wellformed (req : UploadRequest) (w : World) :
  table_ids_wellformed w →
  table_ids_wellformed (snd (FileController.uploadFile P req w)).
Proof.
  intros Hw.
  destruct (req_file req) as [file|] eqn:Hfile;
    [|by rewrite uploadFile_no_file].
  destruct (parsed_userMetadata P req) as [um|e] eqn:Hum;
    [|by rewrite (uploadFile_parse_error _ _ file e)].
  destruct (validateFileType (mimetype file)) eqn:Htype.
  2:{ rewrite (uploadFile_checks _ _ file), Hum, Htype by auto. done. }
  destruct (validateFileSize (file_size file) defaultMaxSize) eqn:Hsize.
  2:{ rewrite (uploadFile_checks _ _ file), Hum, Htype by auto. done. }
  rewrite (uploadFile_steps _ _ file um) by done.
  destruct (read_author um); [|done].
  destruct (sdk_fault P (2 + tick w)); [done|].
  destruct (sdk_fault P (4 + tick w)); [done|].
  destruct (sdk_fault P (5 + tick w)); unfold table_ids_wellformed; simpl.
  - by apply insert_keeps_wellformed.
  - by apply alter_keeps_wellformed, insert_keeps_wellformed.
Qed.

(** Computations that keep the ids of the table well formed. *)
Lemma keeps_ids_ret {A} (a : A) : keeps_ids (ret a).
Proof. by intros w Hw. Qed.

Lemma keeps_ids_throw {A} (e : jsstring) : keeps_ids (@throw A e).
Proof. by intros w Hw. Qed.

Lemma keeps_ids_lift {A} (r : Result A) : keeps_ids (lift r).
Proof. by intros w Hw. Qed.

Lemma keeps_ids_bind {A B} (m : M A) (k : A → M B) :
  keeps_ids m → (∀ a, keeps_ids (k a)) → keeps_ids (bind m k).
Proof.
  intros Hm Hk w Hw. unfold bind. specialize (Hm w Hw).
  destruct (m w) as [[a|e] w']; [by apply Hk|done].
Qed.

Lemma keeps_ids_try_catch {A} (m : M A) (h : jsstring → M A) :
  keeps_ids m → (∀ e, keeps_ids (h e)) → keeps_ids (try_catch m h).
Proof.
  intros Hm Hh w Hw. unfold try_catch. specialize (Hm w Hw).
  destruct (m w) as [[a|e] w']; [done|by apply Hh].
Qed.

Lemma keeps_ids_send {A} (cmd : Command) (run : World → Result A * World) :
  keeps_ids run → keeps_ids (send P cmd run).
Proof.
  intros Hrun w Hw. unfold send.
  destruct (sdk_fault P (tick w)); [done|].
  specialize (Hrun (advance w) Hw). by destruct (run (advance w)).
Qed.

(** The Lambda adds no id at all. *)
Lemma processS3Record_keeps_ids_wellformed (record : S3EventRecord) :
  keeps_ids (processS3Record P record).
Proof.
  unfold processS3Record.
  apply keeps_ids_bind; [apply keeps_ids_lift|]. intros objectKey.
  apply keeps_ids_try_catch; [|intros; apply keeps_ids_throw].
  apply keeps_ids_bind.
  { apply keeps_ids_send. intros w Hw. by destruct (objects w !! _). }
  intros fileBuffer.
  destruct (split_char ch_slash objectKey !! 2%nat) as [fileId|];
    [|apply keeps_ids_ret].
  destruct (jsstring_eqb fileId []); [apply keeps_ids_ret|].
  apply keeps_ids_bind.
  { unfold DynamoDBService.getMetadata, rethrow.
    apply keeps_ids_try_catch; [|intros; apply keeps_ids_throw].
    apply keeps_ids_send. by intros w Hw. }
  intros [metadata|]; [|apply keeps_ids_ret].
  apply keeps_ids_bind; [apply keeps_ids_lift|]. intros extracted.
  unfold DynamoDBService.addExtractedMetadata, DynamoDBService.updateMetadata,
    rethrow.
  apply keeps_ids_try_catch; [|intros; apply keeps_ids_throw].
  apply keeps_ids_send. intros w Hw.
  unfold table_ids_wellformed. simpl. by apply alter_keeps_wellformed.
Qed.

Lemma handler_keeps_ids_wellformed (records : list S3EventRecord) :
  keeps_ids (handler P records).
Proof.
  induction records as [|record rest IH]; simpl; [apply keeps_ids_ret|].
  apply keeps_ids_bind; [|done].
  apply keeps_ids_try_catch; [apply processS3Record_keeps_ids_wellformed|].
  intros; apply keeps_ids_ret.
Qed.

End TableIds.

(** ** From the upload to the processed record *)

Section EndToEnd.

Variable P : Platform.


End EndToEnd.

(** ** A failed record write leaves the blob without a record *)

Lemma record_write_fails :
  let '(r, w) :=
    FileController.uploadFile (Demo.failing_at 4)
      (mkUploadRequest (Some Demo.notes) None) Demo.empty_world in
  r = upload_failed ∧
  List.map snd (log w) = [true; false] ∧
  is_Some (objects w !! (Demo.bucketName,
                         js "uploads/2024-01-15/" ++ Demo.uuid_at 0
                           ++ js "/notes.txt")) ∧
  table w !! Demo.uuid_at 0 = None.
Proof. vm_compute. split_and!; eauto. Qed.

(** * Further properties of the sources *)

(** ** validation.ts: the sanitizer *)

Lemma no_double_underscore_cons (x y : N) (s : jsstring) :
  no_double_underscore (x :: y :: s) =
  negb ((x =? ch_underscore) && (y =? ch_underscore))
  && no_double_underscore (y :: s).
Proof. reflexivity. Qed.

Lemma collapse_underscores_cons (x y : N) (s : jsstring) :
  collapse_underscores (x :: y :: s) =
  if (x =? ch_underscore) && (y =? ch_underscore)
  then collapse_underscores (y :: s)
  else x :: collapse_underscores (y :: s).
Proof. reflexivity. Qed.

Lemma collapse_underscores_head (s : jsstring) :
  head (collapse_underscores s) = head s.
Proof.
  induction s as [|x s IH]; [done|].
  destruct s as [|y s]; [done|].
  rewrite collapse_underscores_cons.
  destruct ((x =? ch_underscore) && (y =? ch_underscore)) eqn:E; [|done].
  rewrite IH. simpl. apply andb_true_iff in E as [Ex Ey].
  apply N.eqb_eq in Ex, Ey. by subst.
Qed.

Lemma collapse_underscores_no_double (s : jsstring) :
  no_double_underscore (collapse_underscores s) = true.
Proof.
  induction s as [|x s IH]; [done|].
  destruct s as [|y s]; [done|].
  rewrite collapse_underscores_cons.
  destruct ((x =? ch_underscore) && (y =? ch_underscore)) eqn:E; [done|].
  pose proof (collapse_underscores_head (y :: s)) as Hh.
  destruct (collapse_underscores (y :: s)) as [|z t] eqn:Ec; [done|].
  simpl in Hh. injection Hh as ->.
  by rewrite no_double_underscore_cons, E, IH.
Qed.

Lemma no_double_underscore_tail (x : N) (s : jsstring) :
  no_double_underscore (x :: s) = true → no_double_underscore s = true.
Proof.
  destruct s as [|y s]; [done|]. rewrite no_double_underscore_cons.
  intros H. by apply andb_true_iff in H as [_ H].
Qed.

Lemma strip_leading_no_double (s : jsstring) :
  no_double_underscore s = true →
  no_double_underscore (strip_leading_underscore s) = true ∧
  head (strip_leading_underscore s) ≠ Some ch_underscore.
Proof.
  destruct s as [|x s]; [done|]. intros H. simpl.
  destruct (x =? ch_underscore) eqn:Ex.
  - split; [by apply (no_double_underscore_tail x)|].
    destruct s as [|y s]; [done|].
    rewrite no_double_underscore_cons, Ex in H. simpl in *. intros [= ->].
    by rewrite N.eqb_refl in H.
  - split; [done|]. simpl. intros [= ->]. by rewrite N.eqb_refl in Ex.
Qed.

(** The last [replace] leaves the text, or takes one final underscore. *)
Lemma strip_trailing_underscore_spec (s : jsstring) :
  (last s ≠ Some ch_underscore ∧ strip_trailing_underscore s = s) ∨
  s = strip_trailing_underscore s ++ [ch_underscore].
Proof.
  induction s as [|x s IH]; [by left|].
  destruct s as [|y s].
  - simpl. destruct (x =? ch_underscore) eqn:Ex.
    + right. apply N.eqb_eq in Ex. by subst.
    + left. split; [|done]. intros [= ->]. by rewrite N.eqb_refl in Ex.
  - change (strip_trailing_underscore (x :: y :: s)) with
      (x :: strip_trailing_underscore (y :: s)).
    destruct IH as [[Hl ->]|Hs]; [by left|right].
    rewrite <- app_comm_cons. by f_equal.
Qed.

Lemma no_double_underscore_snoc (t : jsstring) :
  no_double_underscore (t ++ [ch_underscore]) = true →
  no_double_underscore t = true ∧ last t ≠ Some ch_underscore.
Proof.
  induction t as [|x t IH]; [done|].
  destruct t as [|y t].
  - simpl. rewrite andb_true_r, negb_true_iff.
    intros Hx. split; [done|]. intros [= ->]. done.
  - change ((x :: y :: t) ++ [ch_underscore]) with
      (x :: y :: (t ++ [ch_underscore])).
    rewrite !no_double_underscore_cons.
    intros H. apply andb_true_iff in H as [Hxy H].
    destruct (IH H) as [Hnd Hl]. by rewrite Hxy, Hnd.
Qed.

Lemma strip_trailing_no_double (s : jsstring) :
  no_double_underscore s = true →
  head s ≠ Some ch_underscore →
  no_double_underscore (strip_trailing_underscore s) = true ∧
  head (strip_trailing_underscore s) ≠ Some ch_underscore ∧
  last (strip_trailing_underscore s) ≠ Some ch_underscore.
Proof.
  intros Hnd Hh.
  destruct (strip_trailing_underscore_spec s) as [[Hl ->]|Hs]; [done|].
  rewrite Hs in Hnd, Hh.
  destruct (no_double_underscore_snoc _ Hnd) as [Hnd' Hl].
  split_and!; [done| |done].
  by destruct (strip_trailing_underscore s).
Qed.

(** A text of the sanitizer's alphabet, without two underscores in a row
    and without one at either end, is left as it is. *)
Lemma sanitizeFilename_fixed (t : jsstring) :
  forallb sanitized_char t = true →
  no_double_underscore t = true →
  head t ≠ Some ch_underscore →
  last t ≠ Some ch_underscore →
  sanitizeFilename t = t.
Proof.
  intros Hc Hnd Hh Hl. unfold sanitizeFilename.
  assert (List.map (fun c => if filename_safe c then c else ch_underscore) t
          = t) as ->.
  { clear Hnd Hh Hl. induction t as [|x t IH]; [done|].
    simpl in *. apply andb_true_iff in Hc as [Hx Hc]. rewrite IH by done.
    unfold sanitized_char in Hx. destruct (filename_safe x); [done|].
    simpl in Hx. apply N.eqb_eq in Hx. by subst. }
  assert (collapse_underscores t = t) as ->.
  { clear Hc Hh Hl. induction t as [|x t IH]; [done|].
    destruct t as [|y t]; [done|].
    rewrite collapse_underscores_cons.
    rewrite no_double_underscore_cons in Hnd.
    apply andb_true_iff in Hnd as [Hxy Hnd].
    apply negb_true_iff in Hxy. by rewrite Hxy, IH. }
  assert (strip_leading_underscore t = t) as ->.
  { destruct t as [|x t]; [done|]. simpl.
    destruct (x =? ch_underscore) eqn:Ex; [|done].
    apply N.eqb_eq in Ex. by subst. }
  destruct (strip_trailing_underscore_spec t) as [[_ ->]|Hs]; [done|].
  exfalso. apply Hl. rewrite Hs. by rewrite last_snoc.
Qed.

Lemma sanitizeFilename_shape (filename : jsstring) :
  no_double_underscore (sanitizeFilename filename) = true ∧
  head (sanitizeFilename filename) ≠ Some ch_underscore ∧
  last (sanitizeFilename filename) ≠ Some ch_underscore.
Proof.
  unfold sanitizeFilename.
  set (s1 := List.map _ filename).
  pose proof (collapse_underscores_no_double s1) as H2.
  destruct (strip_leading_no_double _ H2) as [H3 Hh].
  by apply strip_trailing_no_double.
Qed.

(** X1: whatever the name, the sanitized name holds letters, digits, dots,
    dashes and underscores only, never two underscores in a row, and no
    underscore at either end. *)
Theorem sanitizeFilename_result (filename : jsstring) :
  forallb sanitized_char (sanitizeFilename filename) = true ∧
  no_double_underscore (sanitizeFilename filename) = true ∧
  head (sanitizeFilename filename) ≠ Some ch_underscore ∧
  last (sanitizeFilename filename) ≠ Some ch_underscore.
Proof.
  split; [apply sanitizeFilename_chars|apply sanitizeFilename_shape].
Qed.

(** X2: sanitizing a sanitized name changes nothing. *)
Theorem sanitizeFilename_idempotent (filename : jsstring) :
  sanitizeFilename (sanitizeFilename filename) = sanitizeFilename filename.
Proof.
  destruct (sanitizeFilename_shape filename) as (Hnd & Hh & Hl).
  apply sanitizeFilename_fixed; [apply sanitizeFilename_chars|done..].
Qed.

(** X3: a name of letters, digits, dots and dashes is left as it is. *)
Theorem sanitizeFilename_safe_name (filename : jsstring) :
  forallb filename_safe filename = true →
  sanitizeFilename filename = filename.
Proof.
  intros Hsafe.
  assert (Forall (fun c => filename_safe c = true ∧ c ≠ ch_underscore)
            filename) as Hall.
  { induction filename as [|x t IH]; [constructor|].
    simpl in Hsafe. apply andb_true_iff in Hsafe as [Hx Ht].
    constructor; [|by apply IH]. split; [done|]. intros ->. by vm_compute in Hx. }
  apply sanitizeFilename_fixed.
  - apply forallb_of_Forall. eapply Forall_impl; [done|].
    intros c [Hc _]. unfold sanitized_char. by rewrite Hc.
  - clear Hsafe. induction Hall as [|x t [_ Hx] Ht IH]; [done|].
    destruct t as [|y t]; [done|]. rewrite no_double_underscore_cons, IH.
    apply N.eqb_neq in Hx. by rewrite Hx.
  - destruct Hall as [|x t [_ Hx] _]; [done|]. simpl. congruence.
  - clear Hsafe. induction Hall as [|x t [_ Hx] Ht IH]; [done|].
    destruct t as [|y t]; [simpl; congruence|]. done.
Qed.

Lemma sanitizeFilename_safe_name_witness :
  sanitizeFilename (js "report-2024.v2.pdf") = js "report-2024.v2.pdf".
Proof. apply sanitizeFilename_safe_name. reflexivity. Defined.

(** ** metadataExtractor.ts: the text of a buffer *)

Lemma utf16_units_length (cp : N) :
  length (utf16_units cp) = if cp <? 65536 then 1%nat else 2%nat.
Proof. unfold utf16_units. by destruct (cp <? 65536). Qed.

Lemma units_of_app (a b : list N) :
  units_of (a ++ b) = (units_of a + units_of b)%nat.
Proof. unfold units_of. by rewrite map_app, concat_app, length_app. Qed.

Lemma units_of_cons (cp : N) (l : list N) :
  units_of (cp :: l) = (length (utf16_units cp) + units_of l)%nat.
Proof. unfold units_of. simpl. by rewrite length_app. Qed.

Lemma utf8_lead_credit (b : N) :
  utf8_state_ok (snd (utf8_lead b)) ∧
  (units_of (fst (utf8_lead b)) + utf8_credit (snd (utf8_lead b)) ≤ 1)%nat.
Proof.
  unfold utf8_lead.
  pose proof (N.land_le_r b 31). pose proof (N.land_le_r b 15).
  pose proof (N.land_le_r b 7).
  destruct (b <=? 127) eqn:E1.
  { simpl. rewrite units_of_cons, utf16_units_length.
    apply N.leb_le in E1. destruct (b <? 65536) eqn:E; [by simpl|].
    apply N.ltb_ge in E. lia. }
  destruct (in_range 194 223 b).
  { simpl. split; [left; split; [done|lia]|].
    destruct (N.land b 31 <? 1024) eqn:E; [done|]. apply N.ltb_ge in E. lia. }
  destruct (in_range 224 239 b).
  { simpl. split; [right; left; split; [done|lia]|].
    destruct (N.land b 15 <? 16) eqn:E; [done|]. apply N.ltb_ge in E. lia. }
  destruct (in_range 240 244 b).
  { simpl. split; [right; right; split; [done|lia]|done]. }
  simpl. split; [done|]. by vm_compute.
Qed.

Lemma utf8_step_credit (st : option Utf8State) (b : N) :
  utf8_state_ok st →
  utf8_state_ok (snd (utf8_step st b)) ∧
  (units_of (fst (utf8_step st b)) + utf8_credit (snd (utf8_step st b))
   ≤ utf8_credit st + 1)%nat.
Proof.
  destruct st as [st|].
  2:{ intros _. change (utf8_step None b) with (utf8_lead b).
      pose proof (utf8_lead_credit b) as [H1 H2]. split; [done|].
      change (utf8_credit None) with 0%nat. lia. }
  intros Hok. simpl.
  destruct (in_range (u_lower st) (u_upper st) b).
  - pose proof (N.land_le_r b 63) as Hlow.
    set (cp := u_codepoint st * 64 + N.land b 63).
    assert (cp = u_codepoint st * 64 + N.land b 63) as Hcp by done.
    destruct Hok as [[Hn Hb]|[[Hn Hb]|[Hn Hb]]]; rewrite Hn; simpl.
    + rewrite units_of_cons, utf16_units_length. split; [done|].
      change (units_of []) with 0%nat.
      destruct (cp <? 65536) eqn:E1; destruct (u_codepoint st <? 1024) eqn:E2;
        try apply N.ltb_ge in E1; try apply N.ltb_ge in E2;
        try apply N.ltb_lt in E2; simpl; lia.
    + split; [left; split; [done|lia]|].
      change (units_of []) with 0%nat. fold cp.
      destruct (cp <? 1024) eqn:E1; destruct (u_codepoint st <? 16) eqn:E2;
        try apply N.ltb_ge in E1; try apply N.ltb_ge in E2;
        try apply N.ltb_lt in E2; simpl; lia.
    + split; [right; left; split; [done|lia]|].
      change (units_of []) with 0%nat. fold cp.
      destruct (cp <? 16); simpl; lia.
  - pose proof (utf8_lead_credit b) as [Hok' Hle].
    destruct (utf8_lead b) as [out st']. simpl in *.
    split; [done|]. unfold units_of in Hle.
    destruct Hok as [[Hn _]|[[Hn _]|[Hn _]]]; rewrite Hn;
      [destruct (u_codepoint st <? 1024)|destruct (u_codepoint st <? 16)|];
      lia.
Qed.

Lemma utf8_codepoints_units (bytes : list N) (st : option Utf8State) :
  utf8_state_ok st →
  (units_of (utf8_codepoints st bytes) ≤ utf8_credit st + length bytes)%nat.
Proof.
  revert st. induction bytes as [|b rest IH]; intros st Hok.
  - simpl. destruct st as [st|]; [|done].
    change (units_of [replacement]) with 1%nat.
    simpl. destruct Hok as [[Hn _]|[[Hn _]|[Hn _]]]; rewrite Hn;
      [destruct (u_codepoint st <? 1024)|destruct (u_codepoint st <? 16)|];
      lia.
  - simpl. pose proof (utf8_step_credit st b Hok) as [Hok' Hle].
    destruct (utf8_step st b) as [out st']. simpl in *.
    rewrite units_of_app. specialize (IH st' Hok'). lia.
Qed.

(** The text of a buffer has at most as many code units as the buffer has
    bytes, whatever the bytes. *)
Lemma toString_utf8_length (fileBuffer : Buffer) :
  (length (toString_utf8 fileBuffer) ≤ length fileBuffer)%nat.
Proof.
  unfold toString_utf8.
  pose proof (utf8_codepoints_units (List.map Byte.to_N fileBuffer) None I)
    as H.
  unfold units_of in H. simpl in H. by rewrite length_map in H.
Qed.

(** A buffer of ASCII bytes reads as those bytes. *)
Lemma toString_utf8_ascii (fileBuffer : Buffer) :
  Forall (fun b => Byte.to_N b <= 127) fileBuffer →
  toString_utf8 fileBuffer = List.map Byte.to_N fileBuffer.
Proof.
  unfold toString_utf8.
  induction 1 as [|b rest Hb _ IH]; [done|].
  simpl. unfold utf8_lead. apply N.leb_le in Hb as Hb'. rewrite Hb'.
  simpl. rewrite IH. unfold utf16_units.
  destruct (Byte.to_N b <? 65536) eqn:E; [done|]. apply N.ltb_ge in E. lia.
Qed.

(** ** metadataExtractor.ts: extraction *)

Lemma occurrences_le (c : N) (s : jsstring) : (occurrences c s ≤ length s)%nat.
Proof.
  unfold occurrences. induction s as [|x s IH]; simpl; [done|].
  destruct (x =? c); simpl; lia.
Qed.

Lemma Ok_inj {A} (a b : A) : Ok a = Ok b → a = b.
Proof. congruence. Qed.

Section ExtractionFacts.

Variable P : Platform.

(** X4: whatever the buffer and the declared type, extraction returns a
    result that carries the declared type and the byte length of the
    buffer, with a text excerpt of at most 5000 code units; an
    extraction error is recorded for a PDF or an image only, and then no
    other optional field is set. *)
Theorem extractFileMetadata_always (fileBuffer : Buffer) (mimeType : jsstring) :
  ∃ m,
    extractFileMetadata P fileBuffer mimeType = Ok m ∧
    fileType m = mimeType ∧
    fileSize m = buffer_length fileBuffer ∧
    (∀ t, textContent m = Some t → (length t ≤ 5000)%nat) ∧
    (is_Some (extractionError m) →
     (mimeType = js "application/pdf" ∨
      startsWith (js "image/") mimeType = true) ∧
     m = degraded_metadata fileBuffer mimeType
           (default [] (extractionError m))).
Proof.
  unfold extractFileMetadata, catch_result.
  destruct (extract_by_type P fileBuffer mimeType) as [m|e] eqn:E.
  - exists m. split; [done|]. revert E. unfold extract_by_type.
    destruct (jsstring_eqb mimeType (js "application/pdf")).
    { destruct (pdfParse P fileBuffer) as [pdf|]; [|done]. intros E%Ok_inj; subst m.
      cbn [fileType fileSize textContent extractionError basic_metadata].
      split_and!; [done..| |by intros [? [=]]].
      intros t Ht. assert (t = substring0 5000 (text pdf)) as -> by congruence.
      unfold substring0. rewrite length_take. lia. }
    destruct (startsWith (js "image/") mimeType).
    { destruct (sharp_metadata P fileBuffer); [|done]. intros E%Ok_inj; subst m.
      simpl. split_and!; [done..|by intros [? [=]]]. }
    destruct (jsstring_eqb mimeType (js "text/plain")); intros E%Ok_inj; subst m;
      cbn [fileType fileSize textContent extractionError basic_metadata].
    + split_and!; [done..| |by intros [? [=]]].
      intros t Ht.
      assert (t = substring0 5000 (toString_utf8 fileBuffer)) as ->
        by congruence.
      unfold substring0. rewrite length_take. lia.
    + split_and!; [done..|by intros [? [=]]].
  - exists (degraded_metadata fileBuffer mimeType e).
    split_and!; [done..|]. intros _. split; [|done].
    destruct (extract_by_type_throws P _ _ _ E) as [[-> _]|[H _]]; auto.
Qed.

(** X5: for every text file the counts are taken on the whole text: one
    line more than there are newlines, the tokens plus an empty segment
    for white space at either end (one word for the empty text), and the
    length of the whole text; the excerpt is its first 5000 code units, the
    encoding is utf8 and no error is recorded. *)
Theorem text_extraction (fileBuffer : Buffer) :
  let full := toString_utf8 fileBuffer in
  ∃ m,
    extractFileMetadata P fileBuffer (js "text/plain") = Ok m ∧
    textContent m = Some (take 5000 full) ∧
    encoding m = Some (js "utf8") ∧
    extractionError m = None ∧
    textAnalysis m =
    Some (mkTextAnalysis
            (N.of_nat (1 + occurrences ch_newline full))
            (N.of_nat (count_tokens full + edge_segments full))
            (N.of_nat (length full))).
Proof.
  intros full. eexists. split_and!.
  - unfold extractFileMetadata, extract_by_type.
    change (jsstring_eqb (js "text/plain") (js "application/pdf")) with false.
    change (startsWith (js "image/") (js "text/plain")) with false.
    change (jsstring_eqb (js "text/plain") (js "text/plain")) with true.
    cbv beta iota. unfold catch_result. reflexivity.
  - done.
  - done.
  - done.
  - simpl. unfold array_length, js_length.
    by rewrite split_char_length, split_whitespace_length.
Qed.

(** X6: for every text file, the characters counted are at most the bytes
    of the file, the lines are at least one and at most one more than the
    characters, and the words are at least one: an empty file counts one
    line and one word. *)
Theorem text_counts_bounds (fileBuffer : Buffer) :
  ∃ m a,
    extractFileMetadata P fileBuffer (js "text/plain") = Ok m ∧
    textAnalysis m = Some a ∧
    characters a <= fileSize m ∧
    1 <= lines a ∧ lines a <= characters a + 1 ∧
    1 <= words a.
Proof.
  destruct (text_analysis_counts P fileBuffer) as (m & Hm & _ & Ha).
  destruct (extractFileMetadata_never_throws P fileBuffer (js "text/plain"))
    as [m' Hm'].
  exists m. eexists. split; [done|]. split; [done|]. simpl.
  assert (fileSize m = buffer_length fileBuffer) as ->.
  { revert Hm. unfold extractFileMetadata, extract_by_type.
    change (jsstring_eqb (js "text/plain") (js "application/pdf")) with false.
    change (startsWith (js "image/") (js "text/plain")) with false.
    change (jsstring_eqb (js "text/plain") (js "text/plain")) with true.
    cbv beta iota. unfold catch_result. by intros [= <-]. }
  pose proof (toString_utf8_length fileBuffer).
  pose proof (occurrences_le ch_newline (toString_utf8 fileBuffer)).
  unfold buffer_length.
  assert (1 ≤ count_tokens (toString_utf8 fileBuffer)
              + edge_segments (toString_utf8 fileBuffer))%nat.
  { rewrite <- split_whitespace_length.
    pose proof (split_whitespace_not_nil (toString_utf8 fileBuffer)).
    destruct (split_whitespace (toString_utf8 fileBuffer)); [done|simpl; lia]. }
  lia.
Qed.

(** X7: for a text file of ASCII bytes the characters counted are the
    bytes of the file, and the excerpt is the first 5000 of them. *)
Theorem text_extraction_ascii (fileBuffer : Buffer) :
  Forall (fun b => Byte.to_N b <= 127) fileBuffer →
  ∃ m a,
    extractFileMetadata P fileBuffer (js "text/plain") = Ok m ∧
    textContent m = Some (take 5000 (List.map Byte.to_N fileBuffer)) ∧
    textAnalysis m = Some a ∧
    characters a = fileSize m.
Proof.
  intros Hascii.
  destruct (text_analysis_counts P fileBuffer) as (m & Hm & Ht & Ha).
  exists m. eexists. rewrite (toString_utf8_ascii _ Hascii) in Ht, Ha.
  split_and!; [done..|]. simpl. rewrite length_map.
  revert Hm. unfold extractFileMetadata, extract_by_type.
  change (jsstring_eqb (js "text/plain") (js "application/pdf")) with false.
  change (startsWith (js "image/") (js "text/plain")) with false.
  change (jsstring_eqb (js "text/plain") (js "text/plain")) with true.
  cbv beta iota. unfold catch_result. by intros [= <-].
Qed.

End ExtractionFacts.

Lemma text_extraction_ascii_witness :
  ∃ m a,
    extractFileMetadata Demo.platform Demo.hello (js "text/plain") = Ok m ∧
    textContent m = Some (take 5000 (List.map Byte.to_N Demo.hello)) ∧
    textAnalysis m = Some a ∧
    characters a = fileSize m.
Proof.
  apply text_extraction_ascii. repeat constructor; by vm_compute.
Defined.

(** ** metadataExtractor.ts: the handler *)

Section KeepsStores.

Variable P : Platform.
Variable I : gmap (jsstring * jsstring) S3Object →
             gmap jsstring FileMetadata → Prop.

Lemma keeps_stores_ret {A} (a : A) : keeps_stores I (ret a).
Proof. by intros w Hw. Qed.

Lemma keeps_stores_throw {A} (e : jsstring) : keeps_stores I (@throw A e).
Proof. by intros w Hw. Qed.

Lemma keeps_stores_lift {A} (r : Result A) : keeps_stores I (lift r).
Proof. by intros w Hw. Qed.

Lemma keeps_stores_bind {A B} (m : M A) (k : A → M B) :
  keeps_stores I m → (∀ a, keeps_stores I (k a)) → keeps_stores I (bind m k).
Proof.
  intros Hm Hk w Hw. unfold bind. specialize (Hm w Hw).
  destruct (m w) as [[a|e] w']; [by apply Hk|done].
Qed.

Lemma keeps_stores_try_catch {A} (m : M A) (h : jsstring → M A) :
  keeps_stores I m → (∀ e, keeps_stores I (h e)) →
  keeps_stores I (try_catch m h).
Proof.
  intros Hm Hh w Hw. unfold try_catch. specialize (Hm w Hw).
  destruct (m w) as [[a|e] w']; [done|by apply Hh].
Qed.

Lemma keeps_stores_send {A} (cmd : Command) (run : World → Result A * World) :
  keeps_stores I run → keeps_stores I (send P cmd run).
Proof.
  intros Hrun w Hw. unfold send.
  destruct (sdk_fault P (tick w)); [done|].
  specialize (Hrun (advance w) Hw). by destruct (run (advance w)).
Qed.

Lemma keeps_stores_uuidv4 : keeps_stores I (uuidv4 P).
Proof. by intros w Hw. Qed.

Lemma keeps_stores_new_Date : keeps_stores I (new_Date P).
Proof. by intros w Hw. Qed.

Lemma keeps_stores_getMetadata (fileId : jsstring) :
  keeps_stores I (DynamoDBService.getMetadata P fileId).
Proof.
  unfold DynamoDBService.getMetadata, rethrow.
  apply keeps_stores_try_catch; [|intros; apply keeps_stores_throw].
  apply keeps_stores_send. by intros w Hw.
Qed.

Lemma keeps_stores_getFileFromS3 (bucketName objectKey : jsstring) :
  keeps_stores I (getFileFromS3 P bucketName objectKey).
Proof.
  apply keeps_stores_send. intros w Hw. by destruct (objects w !! _).
Qed.

End KeepsStores.

Section Handler.

Variable P : Platform.

Lemma apply_updates_immutable (u : Updates) (m : FileMetadata) :
  immutable_part (DynamoDBService.apply_updates u m) = immutable_part m.
Proof. reflexivity. Qed.

Lemma processS3Record_keeps (w0 : World) (record : S3EventRecord) :
  keeps_stores (same_but_extraction w0) (processS3Record P record).
Proof.
  unfold processS3Record.
  apply keeps_stores_bind; [apply keeps_stores_lift|]. intros objectKey.
  apply keeps_stores_try_catch; [|intros; apply keeps_stores_throw].
  apply keeps_stores_bind; [apply keeps_stores_getFileFromS3|].
  intros fileBuffer.
  destruct (split_char ch_slash objectKey !! 2%nat) as [fileId|];
    [|apply keeps_stores_ret].
  destruct (jsstring_eqb fileId []); [apply keeps_stores_ret|].
  apply keeps_stores_bind; [apply keeps_stores_getMetadata|].
  intros [metadata|]; [|apply keeps_stores_ret].
  apply keeps_stores_bind; [apply keeps_stores_lift|]. intros extracted.
  unfold DynamoDBService.addExtractedMetadata, DynamoDBService.updateMetadata,
    rethrow.
  apply keeps_stores_try_catch; [|intros; apply keeps_stores_throw].
  apply keeps_stores_send. intros w [Ho Ht]. split; [done|].
  intros j. simpl. rewrite lookup_alter. case_decide; [subst|apply Ht].
  rewrite <- Ht. destruct (table w !! j); [|done]. simpl.
  by rewrite apply_updates_immutable.
Qed.

Lemma handler_keeps (w0 : World) (records : list S3EventRecord) :
  keeps_stores (same_but_extraction w0) (handler P records).
Proof.
  induction records as [|record rest IH]; simpl; [apply keeps_stores_ret|].
  apply keeps_stores_bind; [|done].
  apply keeps_stores_try_catch; [apply processS3Record_keeps|].
  intros; apply keeps_stores_ret.
Qed.

Lemma handler_returns (records : list S3EventRecord) (w : World) :
  fst (handler P records w) = Ok tt.
Proof.
  revert w. induction records as [|record rest IH]; intros w; [done|].
  simpl. unfold bind, try_catch, ret.
  destruct (processS3Record P record w) as [[[]|e] w']; apply IH.
Qed.

(** X8: whatever the event and the failures, the handler returns without
    an error, writes no object, and neither adds nor removes a record nor
    changes any field of one but the extracted metadata and the status. *)
Theorem handler_effects (records : list S3EventRecord) (w : World) :
  fst (handler P records w) = Ok tt ∧
  objects (snd (handler P records w)) = objects w ∧
  ∀ j, immutable_part <$> table (snd (handler P records w)) !! j
       = immutable_part <$> table w !! j.
Proof.
  split; [apply handler_returns|].
  by apply (handler_keeps w records w).
Qed.

(** X9: the records of an event are processed in order, each from the
    world that the one before left, whether that one failed or not. *)
Theorem handler_app (records1 records2 : list S3EventRecord) (w : World) :
  handler P (records1 ++ records2) w =
  handler P records2 (snd (handler P records1 w)).
Proof.
  revert w. induction records1 as [|record rest IH]; intros w; [done|].
  simpl. unfold bind, try_catch, ret.
  destruct (processS3Record P record w) as [[[]|e] w']; apply IH.
Qed.

End Handler.

(** ** metadataExtractor.ts: one notification *)

Section Notification.

Variable P : Platform.

Lemma processS3Record_no_blob (record : S3EventRecord) (k : jsstring)
  (w : World) :
  decodeURIComponent P (replace_plus (s3_object_key record)) = Ok k →
  sdk_fault P (tick w) = None →
  objects w !! (s3_bucket_name record, k) = None →
  processS3Record P record w =
  (Throw (js "The specified key does not exist."),
   record_call (GetObject (s3_bucket_name record) k) false (advance w)).
Proof.
  intros Hk F Hobj. unfold processS3Record. unfold bind at 1, lift.
  rewrite Hk. unfold try_catch, bind, getFileFromS3.
  rewrite send_ok by done. simpl. by rewrite Hobj.
Qed.

Lemma processS3Record_no_id (record : S3EventRecord) (k : jsstring)
  (obj : S3Object) (w : World) :
  decodeURIComponent P (replace_plus (s3_object_key record)) = Ok k →
  sdk_fault P (tick w) = None →
  objects w !! (s3_bucket_name record, k) = Some obj →
  split_char ch_slash k !! 2%nat = None ∨
  split_char ch_slash k !! 2%nat = Some [] →
  processS3Record P record w =
  (Ok tt, record_call (GetObject (s3_bucket_name record) k) true (advance w)).
Proof.
  intros Hk F Hobj Hid. unfold processS3Record. unfold bind at 1, lift.
  rewrite Hk. unfold try_catch. unfold bind at 1.
  rewrite (getFileFromS3_ok _ _ _ obj) by done.
  by destruct Hid as [->| ->].
Qed.

Lemma processS3Record_no_record (record : S3EventRecord) (k fileId : jsstring)
  (obj : S3Object) (w : World) :
  decodeURIComponent P (replace_plus (s3_object_key record)) = Ok k →
  sdk_fault P (tick w) = None →
  sdk_fault P (1 + tick w) = None →
  objects w !! (s3_bucket_name record, k) = Some obj →
  split_char ch_slash k !! 2%nat = Some fileId →
  fileId ≠ [] →
  table w !! fileId = None →
  processS3Record P record w =
  (Ok tt,
   record_call (GetItem fileId) true
     (advance
        (record_call (GetObject (s3_bucket_name record) k) true (advance w)))).
Proof.
  intros Hk F1 F2 Hobj Hid Hne Hnone.
  unfold processS3Record. unfold bind at 1, lift.
  rewrite Hk. unfold try_catch. unfold bind at 1.
  rewrite (getFileFromS3_ok _ _ _ obj) by done.
  rewrite Hid. apply jsstring_eqb_false in Hne. rewrite Hne.
  unfold bind at 1. rewrite getMetadata_ok by done.
  change (table (record_call _ _ (advance w))) with (table w).
  by rewrite Hnone.
Qed.

(** X10: a notification for a blob that is not there makes
    [processS3Record] throw at the read, before the key is parsed: one
    failed read is sent, and no record is looked up or touched. *)
Theorem notification_without_blob (record : S3EventRecord) (k : jsstring)
  (w : World) :
  decodeURIComponent P (replace_plus (s3_object_key record)) = Ok k →
  sdk_fault P (tick w) = None →
  objects w !! (s3_bucket_name record, k) = None →
  fst (processS3Record P record w)
  = Throw (js "The specified key does not exist.") ∧
  log (snd (processS3Record P record w))
  = log w ++ [(GetObject (s3_bucket_name record) k, false)] ∧
  table (snd (processS3Record P record w)) = table w ∧
  fst (handler P [record] w) = Ok tt.
Proof.
  intros Hk F Hobj. rewrite (processS3Record_no_blob record k) by done.
  split_and!; [done..|apply handler_returns].
Qed.

(** X11: a notification for a blob whose key has fewer than three
    segments, or an empty third one, is skipped after the read: no error,
    no lookup of a record, nothing written. *)
Theorem notification_for_foreign_key (record : S3EventRecord) (k : jsstring)
  (obj : S3Object) (w : World) :
  decodeURIComponent P (replace_plus (s3_object_key record)) = Ok k →
  sdk_fault P (tick w) = None →
  objects w !! (s3_bucket_name record, k) = Some obj →
  split_char ch_slash k !! 2%nat = None ∨
  split_char ch_slash k !! 2%nat = Some [] →
  fst (processS3Record P record w) = Ok tt ∧
  log (snd (processS3Record P record w))
  = log w ++ [(GetObject (s3_bucket_name record) k, true)] ∧
  table (snd (processS3Record P record w)) = table w ∧
  objects (snd (processS3Record P record w)) = objects w.
Proof.
  intros Hk F Hobj Hid. by rewrite (processS3Record_no_id record k obj).
Qed.

(** X12: a notification whose id names no record is skipped after the
    lookup: no error, and nothing written. *)
Theorem notification_without_record (record : S3EventRecord)
  (k fileId : jsstring) (obj : S3Object) (w : World) :
  decodeURIComponent P (replace_plus (s3_object_key record)) = Ok k →
  sdk_fault P (tick w) = None →
  sdk_fault P (1 + tick w) = None →
  objects w !! (s3_bucket_name record, k) = Some obj →
  split_char ch_slash k !! 2%nat = Some fileId →
  fileId ≠ [] →
  table w !! fileId = None →
  fst (processS3Record P record w) = Ok tt ∧
  log (snd (processS3Record P record w))
  = log w ++ [(GetObject (s3_bucket_name record) k, true);
              (GetItem fileId, true)] ∧
  table (snd (processS3Record P record w)) = table w ∧
  objects (snd (processS3Record P record w)) = objects w.
Proof.
  intros Hk F1 F2 Hobj Hid Hne Hnone.
  rewrite (processS3Record_no_record record k fileId obj) by done.
  simpl. by rewrite <- app_assoc.
Qed.

(** X13: with the SDK calls going through, processing a notification a
    second time leaves the two stores as the first time left them, and
    ends as the first time did. *)
Theorem processS3Record_idempotent (record : S3EventRecord) (w : World) :
  (∀ n, sdk_fault P n = None) →
  let w1 := snd (processS3Record P record w) in
  table (snd (processS3Record P record w1)) = table w1 ∧
  objects (snd (processS3Record P record w1)) = objects w1 ∧
  fst (processS3Record P record w1) = fst (processS3Record P record w).
Proof.
  intros Hok.
  destruct (decodeURIComponent P (replace_plus (s3_object_key record)))
    as [k|e] eqn:Hk.
  2:{ assert (∀ w', processS3Record P record w' = (Throw e, w')) as H.
      { intros w'. unfold processS3Record. unfold bind, lift. by rewrite Hk. }
      simpl. by rewrite !H. }
  destruct (objects w !! (s3_bucket_name record, k)) as [obj|] eqn:Hobj.
  2:{ rewrite (processS3Record_no_blob record k w) by done. simpl.
      by rewrite (processS3Record_no_blob record k) by done. }
  destruct (split_char ch_slash k !! 2%nat) as [fileId|] eqn:Hid.
  2:{ rewrite (processS3Record_no_id record k obj w) by auto. simpl.
      by rewrite (processS3Record_no_id record k obj) by auto. }
  destruct (decide (fileId = [])) as [->|Hne].
  { rewrite (processS3Record_no_id record k obj w) by auto. simpl.
    by rewrite (processS3Record_no_id record k obj) by auto. }
  destruct (table w !! fileId) as [item|] eqn:Hitem.
  2:{ rewrite (processS3Record_no_record record k fileId obj w) by done.
      simpl.
      by rewrite (processS3Record_no_record record k fileId obj) by done. }
  destruct (extractFileMetadata_never_throws P (Body obj) (mimeType item))
    as [extracted Hext].
  rewrite (processS3Record_updates P record k fileId obj item extracted w)
    by done.
  simpl.
  rewrite (processS3Record_updates P record k fileId obj
             (DynamoDBService.apply_updates
                (mkUpdates (Some extracted) (Some PROCESSED)) item)
             extracted); try done.
  - simpl. split_and!; [|done..]. apply map_eq. intros j.
    rewrite !lookup_alter.
    destruct (decide (fileId = j)) as [<-|Hj]; [|done].
    rewrite decide_True by done. by destruct (table w !! fileId).
  - simpl. by rewrite lookup_alter, decide_True, Hitem.
Qed.

End Notification.

Lemma notification_without_blob_witness :
  fst (processS3Record Demo.platform Demo.corrupt_pdf_event Demo.empty_world)
  = Throw (js "The specified key does not exist.") ∧
  log (snd (processS3Record Demo.platform Demo.corrupt_pdf_event
              Demo.empty_world))
  = log Demo.empty_world
    ++ [(GetObject Demo.bucketName Demo.corrupt_pdf_key, false)] ∧
  table (snd (processS3Record Demo.platform Demo.corrupt_pdf_event
                Demo.empty_world)) = table Demo.empty_world ∧
  fst (handler Demo.platform [Demo.corrupt_pdf_event] Demo.empty_world)
  = Ok tt.
Proof.
  apply (notification_without_blob Demo.platform Demo.corrupt_pdf_event).
  - reflexivity.
  - reflexivity.
  - apply lookup_empty.
Defined.

Lemma notification_for_foreign_key_witness :
  let record := mkS3EventRecord Demo.bucketName Demo.foreign_key in
  fst (processS3Record Demo.platform record Demo.foreign_world) = Ok tt ∧
  log (snd (processS3Record Demo.platform record Demo.foreign_world))
  = log Demo.foreign_world
    ++ [(GetObject Demo.bucketName Demo.foreign_key, true)] ∧
  table (snd (processS3Record Demo.platform record Demo.foreign_world))
  = table Demo.foreign_world ∧
  objects (snd (processS3Record Demo.platform record Demo.foreign_world))
  = objects Demo.foreign_world.
Proof.
  apply (notification_for_foreign_key Demo.platform
           (mkS3EventRecord Demo.bucketName Demo.foreign_key)
           Demo.foreign_key
           (mkS3Object (bytes_of "dump") (js "text/plain") [])).
  - reflexivity.
  - reflexivity.
  - apply lookup_singleton_eq.
  - left. reflexivity.
Defined.

Lemma notification_without_record_witness :
  let record := mkS3EventRecord Demo.bucketName Demo.stray_key in
  fst (processS3Record Demo.platform record Demo.stray_world) = Ok tt ∧
  log (snd (processS3Record Demo.platform record Demo.stray_world))
  = log Demo.stray_world
    ++ [(GetObject Demo.bucketName Demo.stray_key, true);
        (GetItem Demo.a_uuid, true)] ∧
  table (snd (processS3Record Demo.platform record Demo.stray_world))
  = table Demo.stray_world ∧
  objects (snd (processS3Record Demo.platform record Demo.stray_world))
  = objects Demo.stray_world.
Proof.
  apply (notification_without_record Demo.platform
           (mkS3EventRecord Demo.bucketName Demo.stray_key)
           Demo.stray_key Demo.a_uuid
           (mkS3Object Demo.hello (js "text/plain") [])).
  - reflexivity.
  - reflexivity.
  - reflexivity.
  - apply lookup_singleton_eq.
  - reflexivity.
  - discriminate.
  - apply lookup_empty.
Defined.

Lemma processS3Record_idempotent_witness :
  let w1 := snd (processS3Record Demo.platform Demo.corrupt_pdf_event
                   Demo.corrupt_pdf_world) in
  table (snd (processS3Record Demo.platform Demo.corrupt_pdf_event w1))
  = table w1 ∧
  objects (snd (processS3Record Demo.platform Demo.corrupt_pdf_event w1))
  = objects w1 ∧
  fst (processS3Record Demo.platform Demo.corrupt_pdf_event w1)
  = fst (processS3Record Demo.platform Demo.corrupt_pdf_event
           Demo.corrupt_pdf_world).
Proof.
  apply (processS3Record_idempotent Demo.platform Demo.corrupt_pdf_event
           Demo.corrupt_pdf_world).
  intros n. reflexivity.
Defined.

(** ** fileController.ts: uploads *)

Section UploadFacts.

Variable P : Platform.





(** X18: a request that the middleware lets through passes the type and
    size checks of the controller: on the route those two checks of
    [uploadFile] never fail. *)
Theorem uploadSingle_covers_controller_checks (req : UploadRequest)
  (file : MulterFile) :
  req_file req = Some file →
  uploadSingle req = None →
  validateFileType (mimetype file) = true ∧
  validateFileSize (file_size file) defaultMaxSize = true.
Proof.
  intros Hfile. unfold uploadSingle.
  rewrite Hfile, fileFilter_validateFileType.
  destruct (validateFileType (mimetype file)); [|done].
  unfold config_maxFileSize, validateFileSize, defaultMaxSize.
  destruct (50 * 1024 * 1024 <? file_size file) eqn:E; [done|].
  intros _. split; [done|]. apply N.ltb_ge in E. by apply N.leb_le.
Qed.

End UploadFacts.





Lemma uploadSingle_covers_controller_checks_witness :
  validateFileType (mimetype Demo.notes) = true ∧
  validateFileSize (file_size Demo.notes) defaultMaxSize = true.
Proof.
  apply (uploadSingle_covers_controller_checks
           (mkUploadRequest (Some Demo.notes) None) Demo.notes); reflexivity.
Defined.

(** ** fileController.ts: deletion and queries *)

Section DeleteAndQuery.

Variable P : Platform.

Lemma s3_deleteFile_ok (k : jsstring) (w : World) :
  sdk_fault P (tick w) = None →
  S3Service.deleteFile P k w =
  (Ok tt,
   record_call (DeleteObject (config_bucket P) k) true
     (set_objects (delete (config_bucket P, k)) (advance w))).
Proof.
  intros H. unfold S3Service.deleteFile, rethrow, try_catch.
  by rewrite send_ok.
Qed.

Lemma s3_deleteFile_fault (k message : jsstring) (w : World) :
  sdk_fault P (tick w) = Some message →
  S3Service.deleteFile P k w =
  (Throw (js "Failed to delete file from S3: " ++ message),
   record_call (DeleteObject (config_bucket P) k) false (advance w)).
Proof.
  intros H. unfold S3Service.deleteFile, rethrow, try_catch, throw.
  by rewrite (send_fault _ _ _ _ message).
Qed.

Lemma deleteMetadata_ok (fileId : jsstring) (w : World) :
  sdk_fault P (tick w) = None →
  DynamoDBService.deleteMetadata P fileId w =
  (Ok tt,
   record_call (DeleteItem fileId) true
     (set_table (delete fileId) (advance w))).
Proof.
  intros H. unfold DynamoDBService.deleteMetadata, rethrow, try_catch.
  by rewrite send_ok.
Qed.

Lemma deleteMetadata_fault (fileId message : jsstring) (w : World) :
  sdk_fault P (tick w) = Some message →
  DynamoDBService.deleteMetadata P fileId w =
  (Throw (js "Failed to delete metadata from DynamoDB: " ++ message),
   record_call (DeleteItem fileId) false (advance w)).
Proof.
  intros H. unfold DynamoDBService.deleteMetadata, rethrow, try_catch, throw.
  by rewrite (send_fault _ _ _ _ message).
Qed.

Lemma getMetadata_not_found (fileId : jsstring) (w : World) :
  uuid_test fileId = true →
  sdk_fault P (tick w) = None →
  table w !! fileId = None →
  FileController.getMetadata P fileId w =
  (not_found, record_call (GetItem fileId) true (advance w)).
Proof.
  intros Hid F Hnone.
  unfold FileController.getMetadata, guarded, bind, respond, ret.
  rewrite Hid. simpl. by rewrite getMetadata_ok, Hnone.
Qed.

(** [deleteFile] on a record that is there, step by step. *)
Lemma deleteFile_steps (fileId : jsstring) (item : FileMetadata) (w : World) :
  sdk_fault P (tick w) = None →
  table w !! fileId = Some item →
  let w1 := record_call (GetItem fileId) true (advance w) in
  let drop_blob := DeleteObject (config_bucket P) (s3Key item) in
  FileController.deleteFile P fileId w =
  match sdk_fault P (1 + tick w) with
  | Some _ => (delete_failed, record_call drop_blob false (advance w1))
  | None =>
      let w2 := record_call drop_blob true
                  (set_objects (delete (config_bucket P, s3Key item))
                     (advance w1)) in
      match sdk_fault P (2 + tick w) with
      | Some _ =>
          (delete_failed, record_call (DeleteItem fileId) false (advance w2))
      | None =>
          (delete_done,
           record_call (DeleteItem fileId) true
             (set_table (delete fileId) (advance w2)))
      end
  end.
Proof.
  intros F0 Hitem w1 drop_blob.
  unfold FileController.deleteFile, guarded. unfold bind at 1.
  rewrite getMetadata_ok, Hitem by done. fold w1.
  unfold bind at 1.
  destruct (sdk_fault P (1 + tick w)) as [m1|] eqn:F1.
  { by rewrite (s3_deleteFile_fault _ m1). }
  rewrite s3_deleteFile_ok by done. unfold bind at 1.
  destruct (sdk_fault P (2 + tick w)) as [m2|] eqn:F2.
  { by rewrite (deleteMetadata_fault _ m2). }
  by rewrite deleteMetadata_ok.
Qed.

(** X19: deleting a record that is there, with the three commands going
    through, answers 200, removes the blob under the key of the record
    and the record, leaves every other object and record, and sends the
    lookup, the blob delete and the record delete in that order; a
    metadata query for the id then answers 404. *)
Theorem delete_removes_blob_and_record (fileId : jsstring)
  (item : FileMetadata) (w : World) :
  table w !! fileId = Some item →
  uuid_test fileId = true →
  (∀ n, sdk_fault P n = None) →
  let w' := snd (FileController.deleteFile P fileId w) in
  fst (FileController.deleteFile P fileId w) = delete_done ∧
  objects w' = delete (config_bucket P, s3Key item) (objects w) ∧
  table w' = delete fileId (table w) ∧
  log w' = log w ++ [(GetItem fileId, true);
                     (DeleteObject (config_bucket P) (s3Key item), true);
                     (DeleteItem fileId, true)] ∧
  fst (FileController.getMetadata P fileId w') = not_found.
Proof.
  intros Hitem Hid Hok w'. unfold w'.
  rewrite (deleteFile_steps fileId item) by done. rewrite !Hok. simpl.
  split_and!; [done..|by rewrite <- !app_assoc|].
  rewrite getMetadata_not_found; [done|done|apply Hok|].
  simpl. apply lookup_delete_eq.
Qed.

(** X20: when the blob delete fails, the answer is 500 and the record
    delete is not sent: both the blob and the record stay. *)
Theorem delete_blob_failure_keeps_record (fileId message : jsstring)
  (item : FileMetadata) (w : World) :
  table w !! fileId = Some item →
  sdk_fault P (tick w) = None →
  sdk_fault P (1 + tick w) = Some message →
  let w' := snd (FileController.deleteFile P fileId w) in
  fst (FileController.deleteFile P fileId w) = delete_failed ∧
  objects w' = objects w ∧
  table w' = table w ∧
  log w' = log w ++ [(GetItem fileId, true);
                     (DeleteObject (config_bucket P) (s3Key item), false)].
Proof.
  intros Hitem F0 F1 w'. unfold w'.
  rewrite (deleteFile_steps fileId item) by done. rewrite F1. simpl.
  split_and!; [done..|by rewrite <- !app_assoc].
Qed.

(** X21: when the record delete fails after the blob delete, the answer
    is 500, the blob is gone and the record stays: a record without a
    blob. *)
Theorem delete_record_failure_leaves_record (fileId message : jsstring)
  (item : FileMetadata) (w : World) :
  table w !! fileId = Some item →
  sdk_fault P (tick w) = None →
  sdk_fault P (1 + tick w) = None →
  sdk_fault P (2 + tick w) = Some message →
  let w' := snd (FileController.deleteFile P fileId w) in
  fst (FileController.deleteFile P fileId w) = delete_failed ∧
  objects w' !! (config_bucket P, s3Key item) = None ∧
  table w' !! fileId = Some item.
Proof.
  intros Hitem F0 F1 F2 w'. unfold w'.
  rewrite (deleteFile_steps fileId item) by done. rewrite F1, F2. simpl.
  split_and!; [done|apply lookup_delete_eq|done].
Qed.

Lemma guarded_snd (m : M Response) (message : string) (w : World) :
  snd (guarded m message w) = snd (m w).
Proof. unfold guarded. by destruct (m w) as [[r|e] w']. Qed.

(** X22: the two queries write nothing: whatever the id, the world and
    the failures, the metadata query and the download query leave the
    objects and the table as they were. *)
Theorem queries_write_nothing (fileId : jsstring) (w : World) :
  objects (snd (FileController.getMetadata P fileId w)) = objects w ∧
  table (snd (FileController.getMetadata P fileId w)) = table w ∧
  objects (snd (FileController.getDownloadUrl P fileId w)) = objects w ∧
  table (snd (FileController.getDownloadUrl P fileId w)) = table w.
Proof.
  assert (keeps_stores (same_stores w)
            (if negb (uuid_test fileId)
             then respond 400 (Failed (js "Invalid file ID format"))
             else
               do metadata <- DynamoDBService.getMetadata P fileId;
               match metadata with
               | None => respond 404 (Failed (js "File not found"))
               | Some metadata => respond 200 (Found metadata)
               end)) as H1.
  { destruct (negb (uuid_test fileId)); [apply keeps_stores_ret|].
    apply keeps_stores_bind; [apply keeps_stores_getMetadata|].
    intros [m|]; apply keeps_stores_ret. }
  assert (keeps_stores (same_stores w)
            (do metadata <- DynamoDBService.getMetadata P fileId;
             match metadata with
             | None => respond 404 (Failed (js "File not found"))
             | Some metadata =>
                 do downloadUrl <-
                   S3Service.getPresignedUrl P (s3Key metadata) 3600;
                 respond 200 (DownloadLink downloadUrl 3600)
             end)) as H2.
  { apply keeps_stores_bind; [apply keeps_stores_getMetadata|].
    intros [m|]; [|apply keeps_stores_ret].
    apply keeps_stores_bind; [|intros; apply keeps_stores_ret].
    unfold S3Service.getPresignedUrl, rethrow.
    apply keeps_stores_try_catch; [apply keeps_stores_lift|].
    intros; apply keeps_stores_throw. }
  unfold FileController.getMetadata, FileController.getDownloadUrl.
  rewrite !guarded_snd.
  destruct (H1 w) as [? ?]; [done|]. destruct (H2 w) as [? ?]; [done|].
  done.
Qed.

(** X23: the download query on a record that is there sends the one
    lookup and no command to S3; it answers 200 with the URL signed for
    the bucket and the key of the record and one hour, or 500 when the
    signing throws. *)
Theorem getDownloadUrl_signs_record_key (fileId : jsstring)
  (item : FileMetadata) (w : World) :
  table w !! fileId = Some item →
  sdk_fault P (tick w) = None →
  fst (FileController.getDownloadUrl P fileId w) =
  match getSignedUrl P (config_bucket P) (s3Key item) 3600 with
  | Ok url => mkResponse 200 (DownloadLink url 3600)
  | Throw _ => download_failed
  end ∧
  log (snd (FileController.getDownloadUrl P fileId w))
  = log w ++ [(GetItem fileId, true)].
Proof.
  intros Hitem F.
  assert (FileController.getDownloadUrl P fileId w =
          (match getSignedUrl P (config_bucket P) (s3Key item) 3600 with
           | Ok url => mkResponse 200 (DownloadLink url 3600)
           | Throw _ => download_failed
           end,
           record_call (GetItem fileId) true (advance w))) as ->.
  { unfold FileController.getDownloadUrl, guarded. unfold bind at 1.
    rewrite getMetadata_ok, Hitem by done.
    unfold bind, S3Service.getPresignedUrl, rethrow, try_catch, lift, throw.
    by destruct (getSignedUrl P (config_bucket P) (s3Key item) 3600). }
  done.
Qed.


End DeleteAndQuery.

Lemma notes_world_record :
  table Demo.notes_world !! Demo.uuid_at 0 =
  Some (mkFileMetadata (Demo.uuid_at 0) (js "notes.txt") (js "notes.txt")
          (js "text/plain") 11 Demo.notes_key Demo.bucketName
          (toISOString (Demo.clock_at 3)) (JObject []) None PROCESSING).
Proof. by vm_compute. Qed.

Lemma delete_removes_blob_and_record_witness :
  let w' := snd (FileController.deleteFile Demo.platform (Demo.uuid_at 0)
                   Demo.notes_world) in
  fst (FileController.deleteFile Demo.platform (Demo.uuid_at 0)
         Demo.notes_world) = delete_done ∧
  objects w' = delete (Demo.bucketName, Demo.notes_key)
                 (objects Demo.notes_world) ∧
  table w' = delete (Demo.uuid_at 0) (table Demo.notes_world) ∧
  log w' = log Demo.notes_world
           ++ [(GetItem (Demo.uuid_at 0), true);
               (DeleteObject Demo.bucketName Demo.notes_key, true);
               (DeleteItem (Demo.uuid_at 0), true)] ∧
  fst (FileController.getMetadata Demo.platform (Demo.uuid_at 0) w')
  = not_found.
Proof.
  apply (delete_removes_blob_and_record Demo.platform (Demo.uuid_at 0)
           (mkFileMetadata (Demo.uuid_at 0) (js "notes.txt") (js "notes.txt")
              (js "text/plain") 11 Demo.notes_key Demo.bucketName
              (toISOString (Demo.clock_at 3)) (JObject []) None PROCESSING)
           Demo.notes_world).
  - apply notes_world_record.
  - reflexivity.
  - intros n. reflexivity.
Defined.

Lemma delete_blob_failure_keeps_record_witness :
  let w' := snd (FileController.deleteFile (Demo.failing_at 7)
                   (Demo.uuid_at 0) Demo.notes_world) in
  fst (FileController.deleteFile (Demo.failing_at 7) (Demo.uuid_at 0)
         Demo.notes_world) = delete_failed ∧
  objects w' = objects Demo.notes_world ∧
  table w' = table Demo.notes_world ∧
  log w' = log Demo.notes_world
           ++ [(GetItem (Demo.uuid_at 0), true);
               (DeleteObject Demo.bucketName Demo.notes_key, false)].
Proof.
  apply (delete_blob_failure_keeps_record (Demo.failing_at 7)
           (Demo.uuid_at 0) (js "connect ECONNREFUSED")
           (mkFileMetadata (Demo.uuid_at 0) (js "notes.txt") (js "notes.txt")
              (js "text/plain") 11 Demo.notes_key Demo.bucketName
              (toISOString (Demo.clock_at 3)) (JObject []) None PROCESSING)
           Demo.notes_world).
  - apply notes_world_record.
  - reflexivity.
  - reflexivity.
Defined.

Lemma delete_record_failure_leaves_record_witness :
  let item :=
    mkFileMetadata (Demo.uuid_at 0) (js "notes.txt") (js "notes.txt")
      (js "text/plain") 11 Demo.notes_key Demo.bucketName
      (toISOString (Demo.clock_at 3)) (JObject []) None PROCESSING in
  let w' := snd (FileController.deleteFile (Demo.failing_at 8)
                   (Demo.uuid_at 0) Demo.notes_world) in
  fst (FileController.deleteFile (Demo.failing_at 8) (Demo.uuid_at 0)
         Demo.notes_world) = delete_failed ∧
  objects w' !! (Demo.bucketName, Demo.notes_key) = None ∧
  table w' !! Demo.uuid_at 0 = Some item.
Proof.
  apply (delete_record_failure_leaves_record (Demo.failing_at 8)
           (Demo.uuid_at 0) (js "connect ECONNREFUSED")
           (mkFileMetadata (Demo.uuid_at 0) (js "notes.txt") (js "notes.txt")
              (js "text/plain") 11 Demo.notes_key Demo.bucketName
              (toISOString (Demo.clock_at 3)) (JObject []) None PROCESSING)
           Demo.notes_world).
  - apply notes_world_record.
  - reflexivity.
  - reflexivity.
  - reflexivity.
Defined.

Lemma getDownloadUrl_signs_record_key_witness :
  fst (FileController.getDownloadUrl Demo.platform (Demo.uuid_at 0)
         Demo.notes_world) =
  mkResponse 200
    (DownloadLink
       (Demo.endpointUrl ++ [ch_slash] ++ Demo.bucketName ++ [ch_slash]
          ++ Demo.notes_key ++ js "?X-Amz-Expires=3600") 3600) ∧
  log (snd (FileController.getDownloadUrl Demo.platform (Demo.uuid_at 0)
              Demo.notes_world))
  = log Demo.notes_world ++ [(GetItem (Demo.uuid_at 0), true)].
Proof.
  apply (getDownloadUrl_signs_record_key Demo.platform (Demo.uuid_at 0)
           (mkFileMetadata (Demo.uuid_at 0) (js "notes.txt") (js "notes.txt")
              (js "text/plain") 11 Demo.notes_key Demo.bucketName
              (toISOString (Demo.clock_at 3)) (JObject []) None PROCESSING)
           Demo.notes_world).
  - apply notes_world_record.
  - reflexivity.
Defined.



(** ** fileUtils.ts, errorHandler.ts and the two services *)

Lemma is_digit_digit (n : N) : is_digit (digit n) = true.
Proof.
  pose proof (digit_bounds n). unfold is_digit, in_range.
  apply andb_true_iff. split; apply N.leb_le; lia.
Qed.

(** X26: up to the year 9999 the key is the prefix, the date of the clock
    as four digits, two digits and two digits joined by dashes, the id and
    the file name, joined by slashes. *)
Theorem generateS3Key_format (now : Date) (filename fileId : jsstring) :
  year now <= 9999 →
  ∃ d,
    generateS3Key now filename fileId =
    js "uploads/" ++ d ++ [ch_slash] ++ fileId ++ [ch_slash] ++ filename ∧
    match_classes date_pattern d = true ∧
    d = pad4 (year now) ++ [ch_dash] ++ pad2 (month now) ++ [ch_dash]
        ++ pad2 (day now).
Proof.
  intros Hy. exists (iso_date now). split_and!.
  - rewrite generateS3Key_eq.
    change (js "uploads/") with (js "uploads" ++ [ch_slash]).
    by rewrite <- !app_assoc.
  - unfold iso_date. apply N.leb_le in Hy. rewrite Hy.
    unfold date_pattern, pad4, pad3, pad2. simpl.
    by rewrite !is_digit_digit.
  - unfold iso_date. apply N.leb_le in Hy. by rewrite Hy.
Qed.

Lemma generateS3Key_format_witness :
  ∃ d,
    generateS3Key (Demo.clock_at 0) (js "notes.txt") Demo.a_uuid =
    js "uploads/" ++ d ++ [ch_slash] ++ Demo.a_uuid ++ [ch_slash]
      ++ js "notes.txt" ∧
    match_classes date_pattern d = true ∧
    d = pad4 2024 ++ [ch_dash] ++ pad2 1 ++ [ch_dash] ++ pad2 15.
Proof.
  apply (generateS3Key_format (Demo.clock_at 0)). by vm_compute.
Defined.

(** X27: the error handler answers an [AppError] with its own status and
    message, and every other error with one of three fixed envelopes: the
    message of such an error is never sent.  Every error of multer is
    answered 400. *)
Theorem errorHandler_answers :
  (∀ message statusCode,
     errorHandler (AppError message statusCode)
     = mkResponse statusCode (ApiError message statusCode)) ∧
  (∀ name message,
     In (errorHandler (OtherError name message)) fixed_envelopes) ∧
  (∀ code, statusCode (handleMulterError (MulterError code)) = 400).
Proof.
  split_and!.
  - intros message statusCode. reflexivity.
  - intros name message. unfold errorHandler, fixed_envelopes.
    destruct (jsstring_eqb name (js "ValidationError")) eqn:E1;
      destruct (jsstring_eqb name (js "MulterError")) eqn:E2; simpl; auto.
  - intros code. unfold handleMulterError.
    destruct (jsstring_eqb code (js "LIMIT_FILE_SIZE")); [done|].
    destruct (jsstring_eqb code (js "LIMIT_FILE_COUNT")); [done|].
    destruct (jsstring_eqb code (js "LIMIT_UNEXPECTED_FILE")); done.
Qed.

Section ServiceRoundTrips.

Variable P : Platform.

Hypothesis sdk_ok : ∀ n, sdk_fault P n = None.

Lemma s3_getFile_found (k : jsstring) (obj : S3Object) (w : World) :
  objects w !! (config_bucket P, k) = Some obj →
  fst (S3Service.getFile P k w) = Ok (Body obj).
Proof.
  intros Hobj. unfold S3Service.getFile, rethrow, try_catch.
  rewrite send_ok by done. simpl. by rewrite Hobj.
Qed.

Lemma s3_getFile_missing (k : jsstring) (w : World) :
  objects w !! (config_bucket P, k) = None →
  fst (S3Service.getFile P k w) =
  Throw (js "Failed to get file from S3: "
           ++ js "The specified key does not exist.").
Proof.
  intros Hobj. unfold S3Service.getFile, rethrow, try_catch, throw.
  rewrite send_ok by done. simpl. by rewrite Hobj.
Qed.

(** X28: with the SDK calls going through, a file read back after its
    upload is the buffer that was uploaded, a file read after its delete
    fails with the wrapped message of the missing key, and neither the
    upload nor the delete touches the object of another key. *)
Theorem s3_round_trips (k : jsstring) (fileBuffer : Buffer)
  (mimeType : jsstring) (metadata : list (jsstring * JSValue)) (w : World) :
  let w1 := snd (S3Service.uploadFile P k fileBuffer mimeType metadata w) in
  let w2 := snd (S3Service.deleteFile P k w1) in
  fst (S3Service.getFile P k w1) = Ok fileBuffer ∧
  fst (S3Service.getFile P k w2) =
    Throw (js "Failed to get file from S3: "
             ++ js "The specified key does not exist.") ∧
  ∀ k', k' ≠ k →
    objects w1 !! (config_bucket P, k') = objects w !! (config_bucket P, k') ∧
    objects w2 !! (config_bucket P, k') = objects w !! (config_bucket P, k').
Proof.
  intros w1 w2.
  destruct (s3_uploadFile_ok P k fileBuffer mimeType metadata w)
    as (result & _ & _ & Hput); [done|].
  assert (objects w1 =
          <[(config_bucket P, k) := mkS3Object fileBuffer mimeType metadata]>
            (objects w)) as Ho1 by (unfold w1; by rewrite Hput).
  assert (objects w2 = delete (config_bucket P, k) (objects w1)) as Ho2.
  { unfold w2. by rewrite s3_deleteFile_ok. }
  split_and!.
  - rewrite (s3_getFile_found k (mkS3Object fileBuffer mimeType metadata));
      [done|]. rewrite Ho1. apply lookup_insert_eq.
  - apply s3_getFile_missing. rewrite Ho2. apply lookup_delete_eq.
  - intros k' Hk'. rewrite Ho2, Ho1.
    rewrite lookup_delete_ne, !lookup_insert_ne by congruence. done.
Qed.

(** X29: with the SDK calls going through, a record read back after
    [saveMetadata] is the record that was saved, with the ISO time of the
    clock in place of an empty [uploadedAt]; after [updateFileStatus] it
    differs in the status alone; after [deleteMetadata] it is absent. *)
Theorem dynamo_round_trips (m : FileMetadata) (s : FileStatus) (w : World) :
  let stamp :=
    if jsstring_eqb (uploadedAt m) [] then toISOString (now_at P (tick w))
    else uploadedAt m in
  let w1 := snd (DynamoDBService.saveMetadata P m w) in
  let w2 := snd (DynamoDBService.updateFileStatus P (id m) s w1) in
  let w3 := snd (DynamoDBService.deleteMetadata P (id m) w2) in
  fst (DynamoDBService.getMetadata P (id m) w1)
  = Ok (Some (with_uploadedAt stamp m)) ∧
  fst (DynamoDBService.getMetadata P (id m) w2)
  = Ok (Some (with_status s (with_uploadedAt stamp m))) ∧
  fst (DynamoDBService.getMetadata P (id m) w3) = Ok None.
Proof.
  intros stamp w1 w2 w3.
  assert (table w1 = <[id m := with_uploadedAt stamp m]> (table w)) as Ht1.
  { unfold w1, stamp, DynamoDBService.saveMetadata, rethrow, try_catch, bind,
      ret, new_Date.
    destruct (jsstring_eqb (uploadedAt m) []); by rewrite send_ok. }
  assert (table w2 =
          alter (DynamoDBService.apply_updates (mkUpdates None (Some s)))
            (id m) (table w1)) as Ht2.
  { unfold w2, DynamoDBService.updateFileStatus.
    by rewrite updateMetadata_ok. }
  assert (table w3 = delete (id m) (table w2)) as Ht3.
  { unfold w3. by rewrite deleteMetadata_ok. }
  rewrite !getMetadata_ok by done.
  rewrite Ht3, Ht2, Ht1. simpl.
  rewrite lookup_delete_eq, lookup_alter, decide_True, lookup_insert_eq
    by done.
  done.
Qed.

End ServiceRoundTrips.

Lemma s3_round_trips_witness :
  let w1 := snd (S3Service.uploadFile Demo.platform Demo.notes_key Demo.hello
                   (js "text/plain") [] Demo.empty_world) in
  let w2 := snd (S3Service.deleteFile Demo.platform Demo.notes_key w1) in
  fst (S3Service.getFile Demo.platform Demo.notes_key w1) = Ok Demo.hello ∧
  fst (S3Service.getFile Demo.platform Demo.notes_key w2) =
    Throw (js "Failed to get file from S3: "
             ++ js "The specified key does not exist.") ∧
  ∀ k', k' ≠ Demo.notes_key →
    objects w1 !! (Demo.bucketName, k')
    = objects Demo.empty_world !! (Demo.bucketName, k') ∧
    objects w2 !! (Demo.bucketName, k')
    = objects Demo.empty_world !! (Demo.bucketName, k').
Proof.
  apply (s3_round_trips Demo.platform). intros n. reflexivity.
Defined.

Lemma dynamo_round_trips_witness :
  let m := mkFileMetadata Demo.a_uuid (js "notes.txt") (js "notes.txt")
             (js "text/plain") 11 Demo.stray_key Demo.bucketName []
             (JObject []) None UPLOADED in
  let w1 := snd (DynamoDBService.saveMetadata Demo.platform m
                   Demo.empty_world) in
  let w2 := snd (DynamoDBService.updateFileStatus Demo.platform Demo.a_uuid
                   PROCESSING w1) in
  let w3 := snd (DynamoDBService.deleteMetadata Demo.platform Demo.a_uuid
                   w2) in
  fst (DynamoDBService.getMetadata Demo.platform Demo.a_uuid w1)
  = Ok (Some (with_uploadedAt (toISOString (Demo.clock_at 0)) m)) ∧
  fst (DynamoDBService.getMetadata Demo.platform Demo.a_uuid w2)
  = Ok (Some (with_status PROCESSING
                (with_uploadedAt (toISOString (Demo.clock_at 0)) m))) ∧
  fst (DynamoDBService.getMetadata Demo.platform Demo.a_uuid w3) = Ok None.
Proof.
  apply (dynamo_round_trips Demo.platform). intros n. reflexivity.
Defined.

(** ** The ids of the example platform *)

Lemma is_hex_digit (n : N) : is_hex (digit n) = true.
Proof. unfold is_hex. by rewrite is_digit_digit. Qed.

Lemma demo_uuid_wellformed (n : nat) : uuid_test (Demo.uuid_at n) = true.
Proof.
  unfold Demo.uuid_at, pad2, uuid_test, uuid_pattern. simpl.
  by rewrite !is_hex_digit.
Qed.

Lemma uploadFile_keeps_ids_wellformed_witness :
  table_ids_wellformed
    (snd (FileController.uploadFile Demo.platform Demo.notes_request
            Demo.empty_world)).
Proof.
  apply (uploadFile_keeps_ids_wellformed Demo.platform).
  - apply demo_uuid_wellformed.
  - apply empty_world_wellformed.
Defined.
